(** * ChatCog: session registry and message dispatch of the Discord chat bot

    Shallow embedding of [chatbot/discord_bot/cogs/chat_cog/chat_cog.py].

    The cog is asynchronous Python: every handler is a coroutine that runs
    without interruption between two [await]s on the platform or on the
    language model.  A coroutine is embedded as a finite tree ([Coro]) whose
    nodes are either synchronous actions on the cog ([Sync]) or suspension
    points on an external collaborator ([Await]).  Two semantics are given:
    [run] executes one coroutine to completion, [run_schedule] interleaves
    several coroutines at their suspension points, as the asyncio event loop
    does with the tasks that discord.py creates for each event. *)

From Stdlib Require Import ZArith String Ascii List Lia.
From stdpp Require Import base decidable option list gmap strings pretty.

Local Open Scope Z_scope.
Local Open Scope string_scope.

(** ** Platform data, as far as the cog reads it *)

Record User := {
  user_id : Z;
  user_name : string;        (* user.name *)
  user_str : string          (* str(user) *)
}.

Record Thread := {
  thread_id : Z;
  thread_owner_id : Z;
  message_count : Z
}.

(** [message.channel.__class__ == discord.Thread] is a test on the variant. *)
Inductive Channel :=
| TextChannel (channel_id : Z)
| ThreadChannel (thread : Thread).

Record Message := {
  message_id : Z;
  author : User;
  content : string;
  channel : Channel;
  created_at : Z             (* platform timestamp, seconds *)
}.

Record Embed := {
  embed_title : option string;
  embed_description : string;
  embed_color : Z
}.

Record ApplicationContext := {
  ctx_channel_id : Z;
  ctx_user : User
}.

Record RawReactionActionEvent := {
  payload_user_id : Z;
  payload_emoji_name : string;
  payload_channel_id : Z;
  payload_message_id : Z
}.

(** ** Exceptions and results *)

Inductive exn :=
| IndexError
| KeyError (key : Z)
| External (what : string).   (* raised by the platform or by the model *)

Definition exn_str (e : exn) : string :=
  match e with
  | IndexError => "string index out of range"
  | KeyError k => pretty k
  | External s => s
  end.

Inductive Result (A : Type) :=
| Ok (a : A)
| Err (e : exn).
Arguments Ok {A} a.
Arguments Err {A} e.

(** ** The [Chat] model

    [class Chat(BaseModel)] has two defaults, [datetime.now().isoformat()]
    and [uuid.uuid4()].  Python evaluates a default when the [class]
    statement runs, that is once, at import; the constructor reads the
    stored values.  [ChatClass] is the class object with those values. *)

Record ChatClass := {
  default_started_at : Z;    (* the instant of datetime.now() at import *)
  default_chat_id : Z        (* the uuid drawn at import *)
}.

Record Chat := {
  title : string;
  thread : Thread;
  assistant : nat;           (* handle of the CourseAssistant object *)
  started_at : Z;
  chat_id : Z;
  messages : list string
}.

(** [Chat(title=..., thread=..., assistant=...)] *)
Definition Chat_new (cls : ChatClass) (title : string) (thread : Thread)
    (assistant : nat) : Chat :=
  {| title := title;
     thread := thread;
     assistant := assistant;
     started_at := default_started_at cls;
     chat_id := default_chat_id cls;
     messages := [] |}.

(** ** External collaborators

    Every [await] on the platform or on the assistant is a request; the
    index is the type of the value it resumes with. *)

Inductive Request : Type -> Type :=
| CtxSend (ctx : ApplicationContext) (embed : Embed) : Request Message
| FetchMessage (channel_id message_id : Z) : Request Message
| CreateThread (message : Message) (name : string) : Request Thread
| ThreadSend (thread : Thread) (text : string) : Request Message
| ThreadSendEmbed (thread : Thread) (embed : Embed) : Request Message
| MessageEdit (message : Message) (text : string) : Request unit
| Typing (channel : Channel) : Request unit
| LoadMemoryFromThread (assistant : nat) (thread : Thread)
    (bot_name : string) : Request unit
| AsyncProcessInput (assistant : nat) (input_text : string) : Request string.

Inductive Level := INFO | WARNING | ERROR.

Inductive Event :=
| EvIO {X : Type} (request : Request X) (response : Result X)
| EvLog (level : Level) (text : string)
| EvPrint (text : string)
| EvNow (instant : Z).

(** The environment answers a request knowing everything that happened so
    far, so an answer may change from one call to the next. *)
Record Env := {
  env_io : list Event -> forall X, Request X -> Result X;
  env_now : list Event -> Z;        (* the clock, datetime.now() *)
  env_uuid4 : list Event -> Z       (* the next draw of uuid.uuid4() *)
}.

(** The body of [class Chat], executed when the module is imported. *)
Definition Chat_class_body (env : Env) (at_import : list Event) : ChatClass :=
  {| default_started_at := env_now env at_import;
     default_chat_id := env_uuid4 env at_import |}.

(** ** The cog and the process state around it *)

(** What a handler reads and never writes.  [get_admin_users] belongs to
    [chatbot.system.environment_variables]; its result is a field here. *)
Record ChatCog := {
  discord_bot_user : User;          (* self._discord_bot.user *)
  _allowed_channels : list Z;       (* self._allowed_channels *)
  admin_users : list Z;             (* what get_admin_users() returns *)
  Chat_cls : ChatClass              (* the imported class Chat *)
}.

(** What changes while the bot runs.  Assistants are Python objects; a
    [Chat] refers to its assistant by the rank of its construction, and
    [assistants] counts the calls of [CourseAssistant()] so far.  The
    memory of an assistant lives in the language-model library and is
    seen here through the requests addressed to the assistant. *)
Record State := {
  _active_threads : gmap Z Chat;    (* self._active_threads *)
  assistants : nat;
  trace : list Event
}.

Definition record (ev : Event) (st : State) : State :=
  {| _active_threads := _active_threads st;
     assistants := assistants st;
     trace := trace st ++ [ev] |}.

(** Synchronous actions: they run to their end without suspension. *)
Inductive Action : Type -> Type :=
| Lookup (key : Z) : Action (option Chat)
| SetItem (key : Z) (chat : Chat) : Action unit
| NewCourseAssistant : Action nat
| Log (level : Level) (text : string) : Action unit
| Print (text : string) : Action unit
| Now : Action Z.

Definition do_action (env : Env) {X} (a : Action X) (st : State) : X * State :=
  match a in Action X return X * State with
  | Lookup key => (_active_threads st !! key, st)
  | SetItem key chat =>
      (tt, {| _active_threads := <[key := chat]> (_active_threads st);
              assistants := assistants st;
              trace := trace st |})
  | NewCourseAssistant =>
      (assistants st, {| _active_threads := _active_threads st;
                         assistants := S (assistants st);
                         trace := trace st |})
  | Log level text => (tt, record (EvLog level text) st)
  | Print text => (tt, record (EvPrint text) st)
  | Now => let t := env_now env (trace st) in (t, record (EvNow t) st)
  end.

(** ** Coroutines *)

Inductive Coro (A : Type) : Type :=
| Ret (a : A)
| Raise (e : exn)
| Sync {X : Type} (a : Action X) (k : X -> Coro A)
| Await {X : Type} (r : Request X) (k : Result X -> Coro A).
Arguments Ret {A} a.
Arguments Raise {A} e.
Arguments Sync {A X} a k.
Arguments Await {A X} r k.

Fixpoint bind {A B} (c : Coro A) (f : A -> Coro B) : Coro B :=
  match c with
  | Ret a => f a
  | Raise e => Raise e
  | Sync a k => Sync a (fun x => bind (k x) f)
  | Await r k => Await r (fun x => bind (k x) f)
  end.

(** [try: c  except Exception as e: h e] *)
Fixpoint try_except {A} (c : Coro A) (h : exn -> Coro A) : Coro A :=
  match c with
  | Ret a => Ret a
  | Raise e => h e
  | Sync a k => Sync a (fun x => try_except (k x) h)
  | Await r k => Await r (fun x => try_except (k x) h)
  end.

Definition sync {X} (a : Action X) : Coro X := Sync a Ret.

Definition await {X} (r : Request X) : Coro X :=
  Await r (fun res => match res with Ok x => Ret x | Err e => Raise e end).

Declare Scope coro_scope.
Delimit Scope coro_scope with coro.
Notation "x <- c ;; k" := (bind c (fun x => k))
  (at level 100, c at next level, right associativity) : coro_scope.
Notation "c ;;; k" := (bind c (fun _ => k))
  (at level 100, right associativity) : coro_scope.
Local Open Scope coro_scope.

(** Running one coroutine to its end. *)
Fixpoint run {A} (env : Env) (c : Coro A) (st : State) : Result A * State :=
  match c with
  | Ret a => (Ok a, st)
  | Raise e => (Err e, st)
  | Sync a k => let '(x, st') := do_action env a st in run env (k x) st'
  | Await r k =>
      let res := env_io env (trace st) _ r in
      run env (k res) (record (EvIO r res) st)
  end.

(** Interleaving.  [advance] runs the synchronous prefix of a task; a step
    of the event loop advances one task and carries out the request it
    stops at.  Between two steps any other task may be chosen. *)
Fixpoint advance {A} (env : Env) (c : Coro A) (st : State) : Coro A * State :=
  match c with
  | Sync a k => let '(x, st') := do_action env a st in advance env (k x) st'
  | _ => (c, st)
  end.

Definition step_task {A} (env : Env) (c : Coro A) (st : State) : Coro A * State :=
  let '(c', st') := advance env c st in
  match c' with
  | Await r k =>
      let res := env_io env (trace st') _ r in
      (k res, record (EvIO r res) st')
  | _ => (c', st')
  end.

Fixpoint run_schedule (env : Env) (schedule : list nat)
    (tasks : list (Coro unit)) (st : State) : list (Coro unit) * State :=
  match schedule with
  | [] => (tasks, st)
  | i :: rest =>
      match tasks !! i with
      | Some c =>
          let '(c', st') := step_task env c st in
          run_schedule env rest (<[i := c']> tasks) st'
      | None => run_schedule env rest tasks st
      end
  end.

Definition finished {A} (c : Coro A) : bool :=
  match c with
  | Ret _ | Raise _ => true
  | _ => false
  end.

(** ** Strings of the module *)

Definition nl : string := String "010"%char EmptyString.

Definition lines (ls : list string) : string := String.concat nl ls.

Definition TIME_PASSED_MESSAGE : string :=
  lines
    [EmptyString;
     "> Some time passed and your memory of this conversation reset needed to be reloaded from the thread, but we're good now!";
     "> ";
     "> Provide the human with a brief summary of what you remember about them and this conversation so far.";
     EmptyString].

Definition AWAITING_BOT_RESPONSE : string := "`Awaiting bot response...`".

Definition RELOADING_MEMORY : string :=
  "Reloading memory from thread (might take a while if this was a long conversation)...".

Definition MEMORY_RELOADED_PREFIX : string :=
  "> Memory reloaded from thread - Here's what we told the bot: ```"
  ++ TIME_PASSED_MESSAGE ++ "```> ...and it replied:".

Definition error_report (e : exn) : string :=
  lines ["Oh no, something went wrong! "; "Here is the error:"; " ```";
         exn_str e; "```"].

Definition BRAIN : string := "🧠".

(** ** Python primitives used by the handlers *)

(** [self._active_threads[key]] *)
Definition getitem (key : Z) : Coro Chat :=
  found <- sync (Lookup key) ;;
  match found with
  | Some chat => Ret chat
  | None => Raise (KeyError key)
  end.

(** [key in self._active_threads] *)
Definition contains (key : Z) : Coro bool :=
  found <- sync (Lookup key) ;;
  Ret (match found with Some _ => true | None => false end).

(** [text[i]] on a [str] *)
Definition str_getitem (text : string) (i : nat) : Coro ascii :=
  match String.get i text with
  | Some c => Ret c
  | None => Raise IndexError
  end.

(** ** The handlers of [ChatCog] *)

Section Cog.

Variable self : ChatCog.

Definition _create_chat_title_string (user_name' : string) : string :=
  user_name' ++ "'s chat with " ++ user_name (discord_bot_user self).

Definition _make_title_card_embed (user_name' chat_title : string) : Coro Embed :=
  now <- sync Now ;;
  Ret {| embed_title := Some chat_title;
         embed_description :=
           "A conversation between " ++ user_name'
           ++ " and the bot, started on " ++ pretty now;
         embed_color := 0x25d790 |}.

Definition _initial_message_embed (message : Message) (initial_message : string)
    : Embed :=
  let thread_intro :=
    lines
     [EmptyString;
      "                   Remember! The bot...                   ";
      "                   ...ignores messages starting with ~                                ";
      "                   ...makes things up some times                    ";
      "                   ...cannot search the internet ";
      "                   ...is doing its best 🤖❤️  ";
      "                   ";
      "                   Source code: ";
      "                   https://github.com/jonmatthis/chatbot";
      "                   This bot's prompt: ";
      "                   https://github.com/jonmatthis/chatbot/blob/main/chatbot/assistants/course_assistant/course_assistant_prompt.py";
      "                   ";
      "                   ------------------";
      "                   ------------------";
      "                   Beginning chat with initial message: ";
      "                   ";
      "                   > " ++ initial_message;
      "                    ";
      "                   "] in
  {| embed_title := None;
     embed_description := thread_intro;
     embed_color := 0x25d790 |}.

Definition _async_send_message_to_bot (chat : Chat) (input_text : string)
    : Coro unit :=
  response_message <- await (ThreadSend (thread chat) AWAITING_BOT_RESPONSE) ;;
  try_except
    (await (Typing (channel response_message)) ;;;
     bot_response <- await (AsyncProcessInput (assistant chat) input_text) ;;
     await (MessageEdit response_message bot_response))
    (fun e =>
       sync (Log ERROR (exn_str e)) ;;;
       await (MessageEdit response_message (error_report e))).

Definition _create_chat (thread : Thread) (title : string) : Coro Chat :=
  present <- contains (thread_id thread) ;;
  if (present : bool) then
    sync (Log WARNING ("Thread " ++ pretty (thread_id thread)
                       ++ " already exists! Returning existing chat")) ;;;
    getitem (thread_id thread)
  else
    assistant <- sync NewCourseAssistant ;;
    (if bool_decide (0 < message_count thread) then
       message <- await (ThreadSend thread RELOADING_MEMORY) ;;
       await (LoadMemoryFromThread assistant thread
                (user_str (discord_bot_user self))) ;;;
       let prefix := MEMORY_RELOADED_PREFIX in
       await (MessageEdit message (prefix ++ nl ++ nl ++ "...")) ;;;
       bot_response <- await (AsyncProcessInput assistant TIME_PASSED_MESSAGE) ;;
       let reply := prefix ++ nl ++ nl ++ bot_response in
       await (MessageEdit message reply)
     else Ret tt) ;;;
    let chat := Chat_new (Chat_cls self) title thread assistant in
    sync (SetItem (thread_id thread) chat) ;;;
    Ret chat.

Definition _spawn_thread (message : Message) (initial_text_input : option string)
    : Coro unit :=
  let user_name' := user_str (author message) in
  let chat_title := _create_chat_title_string user_name' in
  thread' <- await (CreateThread message chat_title) ;;
  chat <- _create_chat thread' chat_title ;;
  match initial_text_input with
  | None =>
      let initial_text_input := "A human has requested a chat!" in
      await (ThreadSendEmbed (thread chat)
               (_initial_message_embed message initial_text_input)) ;;;
      _async_send_message_to_bot chat initial_text_input
  | Some initial_text_input =>
      _async_send_message_to_bot chat initial_text_input
  end.

(** The slash command [/chat]. *)
Definition chat (ctx : ApplicationContext) (initial_text_input : option string)
    : Coro unit :=
  if negb (bool_decide (ctx_channel_id ctx ∈ _allowed_channels self)) then
    sync (Log INFO ("Channel " ++ pretty (ctx_channel_id ctx)
                    ++ " is not allowed to start a chat"))
  else
    let chat_title := _create_chat_title_string (user_str (ctx_user ctx)) in
    sync (Log INFO ("Starting chat " ++ chat_title)) ;;;
    title_card_embed <-
      _make_title_card_embed (user_str (ctx_user ctx)) chat_title ;;
    message <- await (CtxSend ctx title_card_embed) ;;
    _spawn_thread message initial_text_input.

(** [get_channel] followed by [fetch_message] is one request: a channel
    missing from the cache makes the fetch raise. *)
Definition on_raw_reaction_add (payload : RawReactionActionEvent) : Coro unit :=
  try_except
    (if bool_decide (payload_user_id payload = user_id (discord_bot_user self))
     then Ret tt
     else if negb (bool_decide (payload_emoji_name payload = BRAIN))
     then Ret tt
     else if negb (bool_decide (payload_user_id payload ∈ admin_users self))
     then
       sync (Log INFO ("User " ++ pretty (payload_user_id payload)
                       ++ " is not an admin user"))
     else
       message <- await (FetchMessage (payload_channel_id payload)
                           (payload_message_id payload)) ;;
       _spawn_thread message (Some (content message)))
    (fun e => sync (Print ("Error: " ++ exn_str e))).

Definition on_message (message : Message) : Coro unit :=
  sync (Log INFO ("Received message: " ++ content message)) ;;;
  if bool_decide (user_id (author message) = user_id (discord_bot_user self))
  then Ret tt
  else
    match channel message with
    | TextChannel _ => Ret tt
    | ThreadChannel thread =>
        if negb (bool_decide
                   (thread_owner_id thread = user_id (discord_bot_user self)))
        then Ret tt
        else
          first <- str_getitem (content message) 0 ;;
          if bool_decide (first = "~"%char) then Ret tt
          else
            chat <-
              try_except (getitem (thread_id thread))
                (fun e =>
                   match e with
                   | KeyError _ =>
                       _create_chat thread
                         (_create_chat_title_string (user_str (author message)))
                   | _ => Raise e
                   end) ;;
            sync (Log INFO ("Sending message to the agent: "
                            ++ content message)) ;;;
            _async_send_message_to_bot chat (content message)
    end.

(** ** Events as the gateway delivers them *)

Inductive TriggerEvent :=
| SlashChat (ctx : ApplicationContext) (initial_text_input : option string)
| ReactionAdd (payload : RawReactionActionEvent)
| MessageCreate (message : Message).

Definition handler (ev : TriggerEvent) : Coro unit :=
  match ev with
  | SlashChat ctx text => chat ctx text
  | ReactionAdd payload => on_raw_reaction_add payload
  | MessageCreate message => on_message message
  end.

(** Events handled one after the other; an exception that leaves a handler
    ends that handler only (the library reports it and goes on). *)
Fixpoint run_events (env : Env) (evs : list TriggerEvent) (st : State) : State :=
  match evs with
  | [] => st
  | ev :: rest => run_events env rest (snd (run env (handler ev) st))
  end.

End Cog.

(** ** Observations on a trace *)

Definition is_io (ev : Event) : bool :=
  match ev with
  | EvIO _ _ => true
  | _ => false
  end.

Definition is_load (ev : Event) : bool :=
  match ev with
  | EvIO (LoadMemoryFromThread _ _ _) _ => true
  | _ => false
  end.

Definition is_error_log (ev : Event) : bool :=
  match ev with
  | EvLog ERROR _ => true
  | _ => false
  end.

Definition count_events (p : Event -> bool) (tr : list Event) : nat :=
  length (List.filter p tr).

(** Number of history loads carried out so far. *)
Definition loads (st : State) : nat := count_events is_load (trace st).

(** The turns handed to the model, with the assistant that received each. *)
Definition turn_of_event (ev : Event) : option (nat * string) :=
  match ev with
  | EvIO (AsyncProcessInput a text) _ => Some (a, text)
  | _ => None
  end.

(** Texts the end user sees in a thread: messages sent and edits. *)
Definition shown_text (ev : Event) : option string :=
  match ev with
  | EvIO (ThreadSend _ text) (Ok _) => Some text
  | EvIO (MessageEdit _ text) (Ok _) => Some text
  | _ => None
  end.

(** The thread [key] has a session in the registry. *)
Definition registered (key : Z) (st : State) : Prop :=
  is_Some (_active_threads st !! key).

(** A message that [on_message] takes as a turn for the session of
    [thread]: not written by the bot, in a thread the bot owns, with a
    text that does not start with [~]. *)
Definition for_the_bot (self : ChatCog) (message : Message) (thread : Thread)
    : Prop :=
  user_id (author message) <> user_id (discord_bot_user self) /\
  channel message = ThreadChannel thread /\
  thread_owner_id thread = user_id (discord_bot_user self) /\
  exists c0 rest, content message = String c0 rest /\ c0 <> "~"%char.

(** ** Concrete scenarios *)

Module Scenario.

Definition bot : User :=
  {| user_id := 1; user_name := "bot"; user_str := "bot#0001" |}.

Definition alice : User :=
  {| user_id := 42; user_name := "alice"; user_str := "alice#1234" |}.

(** Answers of a platform and a model that are both up; [history] and
    [model] give the outcome of the two calls on the assistant. *)
Definition answer (history : Result unit) (model : string -> Result string)
    (tr : list Event) X (r : Request X) : Result X :=
  let stamp := Z.of_nat (length tr) in
  match r in Request X return Result X with
  | CtxSend ctx _ =>
      Ok {| message_id := 1000 + stamp; author := bot; content := EmptyString;
            channel := TextChannel (ctx_channel_id ctx); created_at := stamp |}
  | FetchMessage c m =>
      Ok {| message_id := m; author := alice; content := "hello";
            channel := TextChannel c; created_at := 0 |}
  | CreateThread m _ =>
      Ok {| thread_id := message_id m; thread_owner_id := user_id bot;
            message_count := 0 |}
  | ThreadSend t text =>
      Ok {| message_id := 1000 + stamp; author := bot; content := text;
            channel := ThreadChannel t; created_at := stamp |}
  | ThreadSendEmbed t _ =>
      Ok {| message_id := 1000 + stamp; author := bot; content := EmptyString;
            channel := ThreadChannel t; created_at := stamp |}
  | MessageEdit _ _ => Ok tt
  | Typing _ => Ok tt
  | LoadMemoryFromThread _ _ _ => history
  | AsyncProcessInput _ text => model text
  end.

(** The clock advances with every event; every uuid drawn is new. *)
Definition clock (tr : list Event) : Z := 1700000000 + Z.of_nat (length tr).
Definition draw (tr : list Event) : Z := 900 + Z.of_nat (length tr).

Definition env_ok : Env :=
  {| env_io := answer (Ok tt) (fun _ => Ok "reply");
     env_now := clock; env_uuid4 := draw |}.

Definition env_history_unavailable : Env :=
  {| env_io := answer (Err (External "history unavailable"))
                 (fun _ => Ok "reply");
     env_now := clock; env_uuid4 := draw |}.


Definition cog : ChatCog :=
  {| discord_bot_user := bot;
     _allowed_channels := [100];
     admin_users := [42];
     Chat_cls := Chat_class_body env_ok [] |}.

(** The state after [ChatCog.__init__]. *)
Definition st0 : State :=
  {| _active_threads := ∅; assistants := 0; trace := [] |}.

(** Two threads owned by the bot; thread 7 has three earlier messages,
    thread 8 is new. *)
Definition T7 : Thread :=
  {| thread_id := 7; thread_owner_id := 1; message_count := 3 |}.
Definition T8 : Thread :=
  {| thread_id := 8; thread_owner_id := 1; message_count := 0 |}.

Definition message_in (t : Thread) (id : Z) (text : string) (at_ : Z)
    : Message :=
  {| message_id := id; author := alice; content := text;
     channel := ThreadChannel t; created_at := at_ |}.

Definition hi : Message := message_in T7 500 "hi" 10.
Definition more : Message := message_in T7 501 "tell me more" 11.
Definition later : Message := message_in T8 502 "hello" 1000010.
Definition attachment_only : Message := message_in T7 503 EmptyString 12.

Definition session7 : Chat :=
  Chat_new (Chat_cls cog) "alice#1234's chat with bot" T7 0.

Definition st_with_7 : State :=
  {| _active_threads := {[ 7 := session7 ]}; assistants := 1; trace := [] |}.

Definition reaction (who : Z) (emoji : string) : RawReactionActionEvent :=
  {| payload_user_id := who; payload_emoji_name := emoji;
     payload_channel_id := 100; payload_message_id := 600 |}.

(** The event loop alternates between the two tasks. *)
Definition alternate : list nat :=
  [0; 1; 0; 1; 0; 1; 0; 1; 0; 1; 0; 1; 0; 1; 0; 1; 0; 1; 0; 1; 0; 1]%nat.

End Scenario.

(** ** The registry from one handler to the next *)

(** The two states differ by their traces only. *)
Definition same_cog (st st' : State) : Prop :=
  _active_threads st' = _active_threads st /\ assistants st' = assistants st.

(** What a handler that runs alone does to the registry: it leaves it as
    it is (an assistant may have been built and dropped), or it adds one
    session, for a thread that had none, around an assistant built for it. *)
Definition registry_step (self : ChatCog) (st st' : State) : Prop :=
  (_active_threads st' = _active_threads st /\
   (assistants st' = assistants st \/ assistants st' = S (assistants st)))
  \/
  (exists thread title,
     _active_threads st !! thread_id thread = None /\
     _active_threads st'
       = <[thread_id thread :=
             Chat_new (Chat_cls self) title thread (assistants st)]>
           (_active_threads st) /\
     assistants st' = S (assistants st)).

(** Every session of the registry was built by [_create_chat]: it is filed
    under the id of its thread, holds the defaults of the class and no
    message, and its assistant is one of those built so far; two sessions
    never have the same assistant. *)
Definition built_by_cog (self : ChatCog) (st : State) : Prop :=
  (forall key chat,
     _active_threads st !! key = Some chat ->
     thread_id (thread chat) = key /\
     chat = Chat_new (Chat_cls self) (title chat) (thread chat) (assistant chat) /\
     (assistant chat < assistants st)%nat) /\
  (forall key1 key2 chat1 chat2,
     _active_threads st !! key1 = Some chat1 ->
     _active_threads st !! key2 = Some chat2 ->
     assistant chat1 = assistant chat2 ->
     key1 = key2).

(** The turns handed to the model so far. *)
Definition turns (st : State) : list (nat * string) :=
  omap turn_of_event (trace st).

(** What the end user has been shown so far. *)
Definition shown (st : State) : list string :=
  omap shown_text (trace st).



(** * Green-check summaries

    Shallow embedding of
    [chatbot/ai/workers/green_check_handler/parse_green_check_messages.py].
    Strings are the UTF-8 bytes of the Python text; the patterns that the
    code replaces or splits on are single ASCII characters, which never
    occur inside the encoding of another character. *)

Module GreenCheck.

(** [text.replace(old, new)] for one-character [old] and [new] *)
Fixpoint replace_char (old new : ascii) (text : string) : string :=
  match text with
  | EmptyString => EmptyString
  | String c rest =>
      String (if Ascii.eqb c old then new else c) (replace_char old new rest)
  end.

(** [text.split(sep)] for a one-character [sep] *)
Fixpoint split_char (sep : ascii) (text : string) : list string :=
  match text with
  | EmptyString => [EmptyString]
  | String c rest =>
      if Ascii.eqb c sep then EmptyString :: split_char sep rest
      else
        match split_char sep rest with
        | first :: others => String c first :: others
        | [] => [String c EmptyString]
        end
  end.

Record PaperSummary := {
  title : string;
  author_year : string;
  citation : string;
  abstract : string;
  detailed_summary : string;
  short_summary : string;
  very_short_summary : string;
  extremely_short_summary : string;
  basic_methodology : string;
  tags : string;
  summary_title : string
}.

(** [PaperSummary.__str__] *)
Definition __str__ (self : PaperSummary) : string :=
  let tags := String.concat nl (split_char " " (tags self)) in
  lines
    [EmptyString;
     "# " ++ summary_title self ++ nl;
     "## Title" ++ nl;
     title self ++ nl ++ nl;
     "## Citation:" ++ nl;
     citation self ++ nl ++ nl;
     "## Abstract" ++ nl;
     abstract self ++ nl ++ nl;
     "## Basic Methodology" ++ nl;
     basic_methodology self ++ nl ++ nl;
     "## Detailed Summary" ++ nl;
     detailed_summary self ++ nl ++ nl;
     "## Short Summary" ++ nl;
     short_summary self ++ nl ++ nl;
     "## Very Short Summary" ++ nl;
     very_short_summary self ++ nl ++ nl;
     "## Extremely Short Summary" ++ nl;
     extremely_short_summary self ++ nl ++ nl;
     "## Tags" ++ nl;
     tags;
     EmptyString].

(** The name of the file in [save_green_check_entry_to_markdown]:
    [file_name.replace(":", "_").replace(".", "_").replace(" ", "_")]
    followed by [".md"]. *)
Definition clean_file_name (file_name : string) : string :=
  replace_char " " "_" (replace_char "." "_" (replace_char ":" "_" file_name))
  ++ ".md".

(** The characters that [clean_file_name] replaces. *)
Definition replaced (c : ascii) : bool :=
  Ascii.eqb c ":" || Ascii.eqb c "." || Ascii.eqb c " ".

(** ** The run over the collection

    [parse_green_check_messages] talks to the database, to the language
    model and to the file system; each such call is an operation that the
    world answers with a value or with an exception. *)

Inductive error :=
| ValueError (message : string)
| Raised (what : string).     (* by the database, the model or the file system *)

Record Entry := {
  _student_name : string;                 (* entry["_student_name"] *)
  green_check_messages : list string      (* entry["green_check_messages"] *)
}.

Inductive Op : Type -> Type :=
| NewParser : Op unit                     (* GreenCheckMessageParser() *)
| NewDatabase : Op unit                   (* MongoDatabaseManager() *)
| Find (collection_name : string) : Op (list Entry)
| Shuffle (entries : list Entry) : Op (list Entry)
| LogInfo (text : string) : Op unit
| PrintLine (text : string) : Op unit
| AparseInput (input_text : string) : Op PaperSummary
| Upsert (collection student_name : string) (parsed_output : PaperSummary)
    (parsed_output_string messages : string) : Op unit
| GetInitials (student_name : string) : Op string
| WriteMarkdown (base_summary_name clean_file_name text : string) : Op string
| SaveJson (collection_name : string) : Op unit.

Inductive Prog (A : Type) : Type :=
| Done (a : A)
| Fail (e : error)
| Do {X : Type} (op : Op X) (k : X -> Prog A).
Arguments Done {A} a.
Arguments Fail {A} e.
Arguments Do {A X} op k.

Fixpoint then_ {A B} (p : Prog A) (f : A -> Prog B) : Prog B :=
  match p with
  | Done a => f a
  | Fail e => Fail e
  | Do op k => Do op (fun x => then_ (k x) f)
  end.

Definition do {X} (op : Op X) : Prog X := Do op Done.

Inductive Ev :=
| Did {X : Type} (op : Op X) (answer : X + error).

Definition World := list Ev -> forall X, Op X -> X + error.

Fixpoint exec {A} (world : World) (p : Prog A) (tr : list Ev)
    : (A + error) * list Ev :=
  match p with
  | Done a => (inl a, tr)
  | Fail e => (inr e, tr)
  | Do op k =>
      match world tr _ op with
      | inl x => exec world (k x) (tr ++ [Did op (inl x)])%list
      | inr e => (inr e, (tr ++ [Did op (inr e)])%list)
      end
  end.

Definition BAR : string :=
  "=====================================================================================================".

(** [save_green_check_entry_to_markdown] as the run calls it, without
    subfolder and without path: the folder is made, the file is opened
    and the text written in one operation, which gives back the path. *)
Definition save_green_check_entry_to_markdown
    (base_summary_name text file_name : string) : Prog unit :=
  then_ (do (WriteMarkdown base_summary_name (clean_file_name file_name) text))
    (fun save_path =>
       do (PrintLine ("Markdown file generated and saved at " ++ save_path
                      ++ "."))).

(** The body of the [for] statement, entry after entry. *)
Fixpoint for_each_entry (collection_name : string) (entries : list Entry)
    : Prog unit :=
  match entries with
  | [] => Done tt
  | entry :: rest =>
      then_ (do (PrintLine BAR)) (fun _ =>
      then_ (do (PrintLine ("Green Check Messages for student: "
                            ++ _student_name entry ++ nl))) (fun _ =>
      then_ (do (PrintLine BAR)) (fun _ =>
      let messages := green_check_messages entry in
      if (length messages =? 0)%nat then
        Fail (ValueError ("Student " ++ _student_name entry
                          ++ " has no green check messages"))
      else
        let messages := String.concat nl messages in
        then_ (do (AparseInput messages)) (fun parsed_output =>
        then_ (do (Upsert collection_name (_student_name entry) parsed_output
                     (__str__ parsed_output) messages)) (fun _ =>
        then_ (do (GetInitials (_student_name entry))) (fun student_initials =>
        then_ (save_green_check_entry_to_markdown "green_check_messages"
                 (__str__ parsed_output)
                 (student_initials ++ "_" ++ summary_title parsed_output))
          (fun _ =>
        then_ (do (PrintLine
                     ("Student: " ++ _student_name entry ++ ": " ++ nl
                      ++ "Messages with green check: " ++ nl ++ messages ++ nl
                      ++ "Parsed output: " ++ nl ++ __str__ parsed_output)))
          (fun _ =>
        for_each_entry collection_name rest))))))))
  end.

Definition parse_green_check_messages (overwrite save_to_json : bool)
    (collection_name : string) : Prog unit :=
  then_ (do NewParser) (fun _ =>
  then_ (do NewDatabase) (fun _ =>
  then_ (do (Find collection_name)) (fun all_entries =>
  then_ (do (Shuffle all_entries)) (fun all_entries =>
  then_ (do (LogInfo "Parsing green check messages")) (fun _ =>
  then_ (for_each_entry collection_name all_entries) (fun _ =>
  if save_to_json then do (SaveJson collection_name) else Done tt)))))).

(** Observations on a trace. *)
Definition upserted (ev : Ev) : option string :=
  match ev with
  | Did (Upsert _ student_name _ _ _) (inl _) => Some student_name
  | _ => None
  end.

Definition written (ev : Ev) : option string :=
  match ev with
  | Did (WriteMarkdown _ clean _) (inl _) => Some clean
  | _ => None
  end.

Definition is_save_json (ev : Ev) : bool :=
  match ev with
  | Did (SaveJson _) _ => true
  | _ => false
  end.

Definition shuffled (ev : Ev) : option (list Entry) :=
  match ev with
  | Did (Shuffle _) (inl entries) => Some entries
  | _ => None
  end.

Definition upserts (tr : list Ev) : list string := omap upserted tr.
Definition files (tr : list Ev) : list string := omap written tr.
Definition saves (tr : list Ev) : nat := length (List.filter is_save_json tr).
Definition shuffles (tr : list Ev) : list (list Entry) := omap shuffled tr.

Definition has_messages (entry : Entry) : Prop :=
  green_check_messages entry <> [].

End GreenCheck.

(** ** More scenarios *)

Module Cases.

(** The environment [env], except that the requests picked by [which]
    are refused with [e]. *)
Definition refusing (which : forall X, Request X -> bool) (e : exn)
    (env : Env) : Env :=
  {| env_io := fun tr X r => if which X r then Err e else env_io env tr X r;
     env_now := env_now env;
     env_uuid4 := env_uuid4 env |}.

Definition is_fetch X (r : Request X) : bool :=
  match r with FetchMessage _ _ => true | _ => false end.

Definition is_create_thread X (r : Request X) : bool :=
  match r with CreateThread _ _ => true | _ => false end.

Definition is_thread_send X (r : Request X) : bool :=
  match r with ThreadSend _ _ => true | _ => false end.

(** The platform takes no message of more than 2000 characters. *)
Definition is_long_edit X (r : Request X) : bool :=
  match r with
  | MessageEdit _ text => (2000 <? String.length text)%nat
  | _ => false
  end.

Definition long_reply : string := string_of_list_ascii (repeat "a"%char 2001).

Definition env_no_fetch : Env :=
  refusing is_fetch (External "Unknown Message") Scenario.env_ok.

Definition env_no_thread : Env :=
  refusing is_create_thread (External "Missing Permissions") Scenario.env_ok.

Definition env_no_send : Env :=
  refusing is_thread_send (External "Missing Access") Scenario.env_ok.

Definition env_long_reply : Env :=
  refusing is_long_edit (External "Must be 2000 or fewer in length.")
    {| env_io := Scenario.answer (Ok tt) (fun _ => Ok long_reply);
       env_now := Scenario.clock; env_uuid4 := Scenario.draw |}.

(** The placeholder as the platform of the scenarios returns it for a
    session of thread 7 with an empty trace. *)
Definition placeholder : Message :=
  {| message_id := 1000; author := Scenario.bot;
     content := AWAITING_BOT_RESPONSE;
     channel := ThreadChannel Scenario.T7; created_at := 0 |}.

Definition outside : ApplicationContext :=
  {| ctx_channel_id := 101; ctx_user := Scenario.alice |}.

Definition inside : ApplicationContext :=
  {| ctx_channel_id := 100; ctx_user := Scenario.alice |}.

Definition aside : Message := Scenario.message_in Scenario.T7 504 "~ aside" 13.

Definition busy_day : list TriggerEvent :=
  [MessageCreate Scenario.hi; SlashChat inside None;
   ReactionAdd (Scenario.reaction 42 BRAIN); MessageCreate Scenario.later;
   MessageCreate Scenario.attachment_only; MessageCreate Scenario.more].

(** Two students, the second one without messages. *)
Definition ada : GreenCheck.Entry :=
  {| GreenCheck._student_name := "Ada Lovelace";
     GreenCheck.green_check_messages := ["paper one"; "paper two"] |}.

Definition bob : GreenCheck.Entry :=
  {| GreenCheck._student_name := "Bob Byron";
     GreenCheck.green_check_messages := [] |}.

Definition summary : GreenCheck.PaperSummary :=
  {| GreenCheck.title := "On engines";
     GreenCheck.author_year := "Lovelace 1843";
     GreenCheck.citation := "Lovelace (1843)";
     GreenCheck.abstract := "Notes.";
     GreenCheck.detailed_summary := "- notes";
     GreenCheck.short_summary := "Notes on the engine.";
     GreenCheck.very_short_summary := "Notes.";
     GreenCheck.extremely_short_summary := "Engine notes";
     GreenCheck.basic_methodology := "Analysis";
     GreenCheck.tags := "#engine #notes";
     GreenCheck.summary_title := "Lovelace 1843 - Engine notes" |}.

(** A world in which everything works; the collection holds [found] and
    the shuffle leaves it in order. *)
Definition world_with (found : list GreenCheck.Entry) : GreenCheck.World :=
  fun tr X op =>
    match op in GreenCheck.Op X return X + GreenCheck.error with
    | GreenCheck.NewParser => inl tt
    | GreenCheck.NewDatabase => inl tt
    | GreenCheck.Find _ => inl found
    | GreenCheck.Shuffle entries => inl entries
    | GreenCheck.LogInfo _ => inl tt
    | GreenCheck.PrintLine _ => inl tt
    | GreenCheck.AparseInput _ => inl summary
    | GreenCheck.Upsert _ _ _ _ _ => inl tt
    | GreenCheck.GetInitials _ => inl "AL"
    | GreenCheck.WriteMarkdown base clean _ => inl (base ++ "/" ++ clean)
    | GreenCheck.SaveJson _ => inl tt
    end.


(** A message of the bot itself without text, as the one that carries the
    embed of a new chat, in thread 7. *)
Definition own_embed : Message :=
  {| message_id := 505; author := Scenario.bot; content := EmptyString;
     channel := ThreadChannel Scenario.T7; created_at := 14 |}.

End Cases.

(** * Properties *)

(** ** The two semantics *)

Lemma run_bind {A B} env (c : Coro A) (f : A -> Coro B) st :
  run env (bind c f) st =
  match run env c st with
  | (Ok a, st') => run env (f a) st'
  | (Err e, st') => (Err e, st')
  end.
Proof.
  revert st.
  induction c as [a | e | X a k IH | X r k IH]; intros st; simpl; trivial.
  destruct (do_action env a st) as [x st1]. apply IH.
Qed.

Lemma run_try_except {A} env (c : Coro A) (h : exn -> Coro A) st :
  run env (try_except c h) st =
  match run env c st with
  | (Ok a, st') => (Ok a, st')
  | (Err e, st') => run env (h e) st'
  end.
Proof.
  revert st.
  induction c as [a | e | X a k IH | X r k IH]; intros st; simpl; trivial.
  destruct (do_action env a st) as [x st1]. apply IH.
Qed.

(** Running a task is the same as letting the event loop step it and then
    running what is left: the interleaved semantics extends [run]. *)
Lemma run_advance {A} env (c : Coro A) st :
  run env c st = run env (fst (advance env c st)) (snd (advance env c st)).
Proof.
  revert st.
  induction c as [a | e | X a k IH | X r k IH]; intros st; simpl; trivial.
  destruct (do_action env a st) as [x st1]. apply IH.
Qed.

Lemma run_step_task {A} env (c : Coro A) st :
  run env c st = run env (fst (step_task env c st)) (snd (step_task env c st)).
Proof.
  rewrite (run_advance env c st). unfold step_task.
  destruct (advance env c st) as [c1 st1]. simpl.
  destruct c1; reflexivity.
Qed.

(** ** The registry only grows

    [SetItem] is the one action that writes the registry, and it inserts. *)







(** ** Symbolic execution of a handler *)

(** Case analysis on the next answer of the environment. *)
Ltac io_case :=
  match goal with
  | |- context [env_io ?env ?tr ?X ?r] =>
      let R := fresh "R" in
      destruct (env_io env tr X r) as [? | ?] eqn:R; simpl
  end.

Lemma count_events_app p tr1 tr2 :
  count_events p (tr1 ++ tr2) = (count_events p tr1 + count_events p tr2)%nat.
Proof. unfold count_events. rewrite List.filter_app, length_app. reflexivity. Qed.

(** ** Session creation *)

(** C1.  When the thread already has a session in the registry,
    [_create_chat] returns that session; the registry is unchanged, no
    assistant is built and no request goes to the platform: the only trace
    of the call is a warning in the log. *)
Theorem create_chat_existing_session_is_noop self env st thread title chat :
  _active_threads st !! thread_id thread = Some chat ->
  exists st',
    run env (_create_chat self thread title) st = (Ok chat, st') /\
    _active_threads st' = _active_threads st /\
    assistants st' = assistants st /\
    trace st' =
      (trace st
       ++ [EvLog WARNING ("Thread " ++ pretty (thread_id thread)
                          ++ " already exists! Returning existing chat")%string])%list.
Proof.
  intros Hreg. eexists. unfold _create_chat, contains, getitem. simpl.
  rewrite Hreg. simpl. rewrite Hreg. simpl. auto.
Qed.

Lemma create_chat_existing_session_is_noop_witness :
  _active_threads Scenario.st_with_7 !! thread_id Scenario.T7
    = Some Scenario.session7 /\
  exists st',
    run Scenario.env_ok (_create_chat Scenario.cog Scenario.T7 "again")
      Scenario.st_with_7 = (Ok Scenario.session7, st') /\
    _active_threads st' = _active_threads Scenario.st_with_7 /\
    assistants st' = assistants Scenario.st_with_7 /\
    trace st' =
      (trace Scenario.st_with_7
       ++ [EvLog WARNING ("Thread " ++ pretty (thread_id Scenario.T7)
                          ++ " already exists! Returning existing chat")%string])%list.
Proof.
  split; [reflexivity |].
  apply (create_chat_existing_session_is_noop Scenario.cog Scenario.env_ok
           Scenario.st_with_7 Scenario.T7 "again" Scenario.session7).
  reflexivity.
Defined.

(** C4.  When [_create_chat] fails, the registry is what it was before the
    call, and the exception the caller receives is the one the failed
    request raised. *)
Theorem create_chat_failure_leaves_registry self env st thread title e st' :
  run env (_create_chat self thread title) st = (Err e, st') ->
  _active_threads st' = _active_threads st /\
  exists X (r : Request X), last (trace st') = Some (EvIO r (Err e)).
Proof.
  unfold _create_chat, contains, getitem. simpl.
  destruct (_active_threads st !! thread_id thread) as [c |] eqn:Hreg; simpl.
  - rewrite Hreg. simpl. discriminate.
  - case_bool_decide; simpl; [| discriminate].
    repeat (io_case;
            [| intros [= <- <-]; simpl;
               split; [reflexivity | eexists _, _; apply last_snoc]]).
    discriminate.
Qed.

Lemma create_chat_failure_leaves_registry_witness :
  let out :=
    run Scenario.env_history_unavailable
      (_create_chat Scenario.cog Scenario.T7 "t") Scenario.st0 in
  out = (Err (External "history unavailable"), snd out) /\
  _active_threads (snd out) = _active_threads Scenario.st0 /\
  exists X (r : Request X),
    last (trace (snd out))
      = Some (EvIO r (Err (External "history unavailable"))).
Proof.
  assert (H : run Scenario.env_history_unavailable
                (_create_chat Scenario.cog Scenario.T7 "t") Scenario.st0
              = (Err (External "history unavailable"),
                 snd (run Scenario.env_history_unavailable
                        (_create_chat Scenario.cog Scenario.T7 "t")
                        Scenario.st0)))
    by (vm_compute; reflexivity).
  split; [exact H |].
  exact (create_chat_failure_leaves_registry _ _ _ _ _ _ _ H).
Defined.

(** C3, as the code has it.  When the history load fails during session
    creation, no session results: [_create_chat] raises the exception of
    the load to its caller and the registry has no entry for the thread. *)
Theorem history_failure_creates_no_session self env st thread title m e :
  _active_threads st !! thread_id thread = None ->
  0 < message_count thread ->
  env_io env (trace st) _ (ThreadSend thread RELOADING_MEMORY) = Ok m ->
  env_io env (trace st ++ [EvIO (ThreadSend thread RELOADING_MEMORY) (Ok m)])%list
    _ (LoadMemoryFromThread (assistants st) thread
         (user_str (discord_bot_user self))) = Err e ->
  exists st',
    run env (_create_chat self thread title) st = (Err e, st') /\
    _active_threads st' = _active_threads st /\
    _active_threads st' !! thread_id thread = None.
Proof.
  intros Hreg Hcount Hsend Hload. eexists.
  unfold _create_chat, contains. simpl. rewrite Hreg. simpl.
  rewrite bool_decide_true by exact Hcount. simpl.
  rewrite Hsend. simpl. rewrite Hload. simpl.
  split; [reflexivity |]. simpl. split; [reflexivity | exact Hreg].
Qed.

Lemma history_failure_creates_no_session_witness :
  exists st',
    run Scenario.env_history_unavailable
      (_create_chat Scenario.cog Scenario.T7 "t") Scenario.st0
      = (Err (External "history unavailable"), st') /\
    _active_threads st' = _active_threads Scenario.st0 /\
    _active_threads st' !! thread_id Scenario.T7 = None.
Proof.
  eapply (history_failure_creates_no_session Scenario.cog
            Scenario.env_history_unavailable Scenario.st0 Scenario.T7 "t").
  - reflexivity.
  - reflexivity.
  - reflexivity.
  - reflexivity.
Defined.

(** C3, as the specification words it, fails: with the history
    unavailable there is no session at all, neither after the failed
    creation nor after two messages of the user, and neither message
    reaches the model. *)
Lemma history_failure_counterexample :
  let out :=
    run Scenario.env_history_unavailable
      (_create_chat Scenario.cog Scenario.T7 "t") Scenario.st0 in
  let st2 :=
    run_events Scenario.cog Scenario.env_history_unavailable
      [MessageCreate Scenario.hi; MessageCreate Scenario.more] Scenario.st0 in
  fst out = Err (External "history unavailable") /\
  _active_threads (snd out) !! 7 = None /\
  _active_threads st2 !! 7 = None /\
  omap turn_of_event (trace st2) = [].
Proof. vm_compute. auto. Qed.

(** What a call adds to the count of history loads. *)
Ltac count_trace :=
  unfold loads; simpl; rewrite ?count_events_app; unfold count_events; simpl;
  try lia.

Lemma dispatch_loads env chat input_text st :
  loads (snd (run env (_async_send_message_to_bot chat input_text) st))
  = loads st.
Proof.
  unfold _async_send_message_to_bot. simpl.
  io_case; [| count_trace].
  io_case; [| io_case; count_trace].
  io_case; [| io_case; count_trace].
  io_case; [count_trace |].
  io_case; count_trace.
Qed.

Lemma dispatch_registry env chat input_text st :
  _active_threads
    (snd (run env (_async_send_message_to_bot chat input_text) st))
  = _active_threads st /\
  assistants
    (snd (run env (_async_send_message_to_bot chat input_text) st))
  = assistants st.
Proof.
  unfold _async_send_message_to_bot. simpl.
  repeat (io_case; auto).
Qed.

(** A message in a thread that has a session goes to that session. *)
Lemma on_message_registered self env st message thread chat c0 rest :
  user_id (author message) <> user_id (discord_bot_user self) ->
  channel message = ThreadChannel thread ->
  thread_owner_id thread = user_id (discord_bot_user self) ->
  content message = String c0 rest ->
  c0 <> "~"%char ->
  _active_threads st !! thread_id thread = Some chat ->
  run env (on_message self message) st =
  run env (_async_send_message_to_bot chat (content message))
    (record (EvLog INFO ("Sending message to the agent: " ++ content message))
       (record (EvLog INFO ("Received message: " ++ content message)) st)).
Proof.
  intros Hauthor Hchannel Howner Hcontent Hfirst Hreg.
  unfold on_message. simpl.
  rewrite bool_decide_false by exact Hauthor.
  rewrite Hchannel. rewrite bool_decide_true by exact Howner. simpl.
  rewrite Hcontent. simpl.
  rewrite bool_decide_false by exact Hfirst.
  unfold getitem. simpl. rewrite Hreg. simpl. reflexivity.
Qed.

Lemma on_message_registered_loads self env st message thread :
  channel message = ThreadChannel thread ->
  registered (thread_id thread) st ->
  loads (snd (run env (on_message self message) st)) = loads st.
Proof.
  intros Hchannel [chat Hreg].
  unfold on_message.
  remember _async_send_message_to_bot as dispatch eqn:Hdispatch. simpl.
  case_bool_decide; [count_trace |].
  rewrite Hchannel.
  case_bool_decide; simpl; [| count_trace].
  destruct (content message) as [| c0 rest]; simpl; [count_trace |].
  case_bool_decide; [count_trace |].
  unfold getitem. simpl. rewrite Hreg. simpl.
  subst dispatch. rewrite dispatch_loads. count_trace.
Qed.

(** C5.  On a thread without a session, [_create_chat] loads the history
    into the new assistant exactly when the thread reports a message count
    above 0: a session that was created went through one load if the count
    is positive and through none otherwise; with a count of 0 the session
    is created at once, without any request; with a positive count the
    load is requested as soon as the platform has taken the notice that
    precedes it.  After creation the choice is not made again: dispatching
    a turn, and handling a message in a thread that has a session, never
    load.

    The load is the one of this session: the request names the assistant
    built in this call, the thread and the bot; the session that is
    returned holds that assistant and is the one written to the registry
    under the id of the thread; on a thread with earlier messages the
    requests of a successful creation are, in this order, the notice, the
    load, the first edit, the exchange with the same assistant and the
    second edit, all answered without error.  The load is the request that
    follows the notice, and when it fails the creation fails with its
    exception and nothing is registered. *)
Theorem history_load_iff_prior_messages self env st thread title :
  _active_threads st !! thread_id thread = None ->
  let out := run env (_create_chat self thread title) st in
  let load :=
    LoadMemoryFromThread (assistants st) thread
      (user_str (discord_bot_user self)) in
  (forall chat, fst out = Ok chat ->
     (loads (snd out) = S (loads st) <-> 0 < message_count thread) /\
     (loads (snd out) = loads st <-> message_count thread <= 0)) /\
  (message_count thread <= 0 ->
     fst out = Ok (Chat_new (Chat_cls self) title thread (assistants st)) /\
     trace (snd out) = trace st) /\
  (0 < message_count thread ->
     forall m,
       env_io env (trace st) _ (ThreadSend thread RELOADING_MEMORY) = Ok m ->
       loads (snd out) = S (loads st)) /\
  (forall chat input_text st1,
     loads (snd (run env (_async_send_message_to_bot chat input_text) st1))
     = loads st1) /\
  (forall message thread1 st1,
     channel message = ThreadChannel thread1 ->
     registered (thread_id thread1) st1 ->
     loads (snd (run env (on_message self message) st1)) = loads st1) /\
  (forall chat, fst out = Ok chat ->
     chat = Chat_new (Chat_cls self) title thread (assistants st) /\
     _active_threads (snd out)
       = <[thread_id thread := chat]> (_active_threads st) /\
     (0 < message_count thread ->
      exists notice bot_response,
        trace (snd out)
        = (trace st
           ++ [EvIO (ThreadSend thread RELOADING_MEMORY) (Ok notice);
               EvIO load (Ok tt);
               EvIO (MessageEdit notice
                       (MEMORY_RELOADED_PREFIX ++ nl ++ nl ++ "...")%string)
                 (Ok tt);
               EvIO (AsyncProcessInput (assistants st) TIME_PASSED_MESSAGE)
                 (Ok bot_response);
               EvIO (MessageEdit notice
                       (MEMORY_RELOADED_PREFIX ++ nl ++ nl
                        ++ bot_response)%string)
                 (Ok tt)])%list)) /\
  (0 < message_count thread ->
   forall notice,
     env_io env (trace st) _ (ThreadSend thread RELOADING_MEMORY) = Ok notice ->
     let tr1 :=
       (trace st ++ [EvIO (ThreadSend thread RELOADING_MEMORY) (Ok notice)])%list
     in
     let answer := env_io env tr1 _ load in
     (exists more, trace (snd out) = (tr1 ++ EvIO load answer :: more)%list) /\
     (forall e, answer = Err e ->
        fst out = Err e /\
        _active_threads (snd out) = _active_threads st /\
        trace (snd out) = (tr1 ++ [EvIO load (Err e)])%list)).
Proof.
  intros Hreg out load.
  assert (Hzero : message_count thread <= 0 ->
                  fst out = Ok (Chat_new (Chat_cls self) title thread
                                  (assistants st)) /\
                  trace (snd out) = trace st).
  { intros Hle. subst out. unfold _create_chat, contains. simpl.
    rewrite Hreg. simpl. rewrite bool_decide_false by lia. simpl. auto. }
  assert (Hpos : 0 < message_count thread ->
                 (forall chat, fst out = Ok chat ->
                    loads (snd out) = S (loads st)) /\
                 (forall m,
                    env_io env (trace st) _ (ThreadSend thread RELOADING_MEMORY)
                      = Ok m ->
                    loads (snd out) = S (loads st))).
  { intros Hlt. subst out. unfold _create_chat, contains. simpl.
    rewrite Hreg. simpl. rewrite bool_decide_true by exact Hlt. simpl.
    io_case.
    - assert (Hgoal :
        forall o : Result Chat * State,
          loads (snd o) = S (loads st) ->
          (forall chat, fst o = Ok chat -> loads (snd o) = S (loads st)) /\
          (forall m0 : Message, Ok a = Ok m0 -> loads (snd o) = S (loads st)))
        by auto.
      apply Hgoal.
      io_case; [| count_trace].
      io_case; [| count_trace].
      io_case; [| count_trace].
      io_case; count_trace.
    - split; [discriminate | discriminate]. }
  split; [| split; [| split; [| split; [| split; [| split]]]]].
  - intros chat Hok.
    destruct (Z_lt_le_dec 0 (message_count thread)) as [Hlt | Hle].
    + destruct (Hpos Hlt) as [H1 _]. specialize (H1 chat Hok).
      split; split; intros; try lia; trivial.
    + destruct (Hzero Hle) as [_ Htr].
      assert (Hsame : loads (snd out) = loads st)
        by (unfold loads; rewrite Htr; reflexivity).
      split; split; intros; try lia; trivial.
  - exact Hzero.
  - intros Hlt m Hsend. destruct (Hpos Hlt) as [_ H2]. exact (H2 m Hsend).
  - intros. apply dispatch_loads.
  - intros. eapply on_message_registered_loads; eassumption.
  - intros chat Hok. clear Hzero Hpos. subst out load. revert Hok.
    unfold _create_chat, contains. simpl. rewrite Hreg. simpl.
    case_bool_decide as Hcount; simpl.
    + repeat (io_case; [| discriminate]).
      intros [= <-]. split; [reflexivity |]. split; [reflexivity |].
      intros _.
      repeat match goal with u : unit |- _ => destruct u end.
      eexists _, _. rewrite <- !app_assoc. reflexivity.
    + intros [= <-]. split; [reflexivity |]. split; [reflexivity |].
      intros Hlt. contradiction.
  - intros Hcount notice Hsend tr1 answer. clear Hzero Hpos.
    subst out load answer tr1.
    unfold _create_chat, contains. simpl. rewrite Hreg. simpl.
    rewrite bool_decide_true by exact Hcount. simpl.
    rewrite Hsend. simpl.
    io_case.
    + split; [| discriminate].
      io_case; [| eexists; rewrite <- !app_assoc; reflexivity].
      io_case; [| eexists; rewrite <- !app_assoc; reflexivity].
      io_case; eexists; rewrite <- !app_assoc; reflexivity.
    + split; [exists []; reflexivity |].
      intros e0 [= <-]. auto.
Qed.

Lemma history_load_iff_prior_messages_witness :
  let out7 :=
    run Scenario.env_ok
      (_create_chat Scenario.cog Scenario.T7 (title Scenario.session7))
      Scenario.st0 in
  let out8 :=
    run Scenario.env_ok (_create_chat Scenario.cog Scenario.T8 "t")
      Scenario.st0 in
  _active_threads Scenario.st0 !! thread_id Scenario.T7 = None /\
  fst out7 = Ok Scenario.session7 /\
  loads (snd out7) = 1%nat /\
  fst out8 = Ok (Chat_new (Chat_cls Scenario.cog) "t" Scenario.T8 0) /\
  loads (snd out8) = 0%nat /\
  _active_threads (snd out7)
    = <[7 := Scenario.session7]> (_active_threads Scenario.st0) /\
  trace (snd out7) !! 1%nat
    = Some (EvIO (LoadMemoryFromThread 0 Scenario.T7 "bot#0001") (Ok tt)).
Proof.
  assert (H7 : fst (run Scenario.env_ok
                      (_create_chat Scenario.cog Scenario.T7
                         (title Scenario.session7)) Scenario.st0)
               = Ok Scenario.session7) by (vm_compute; reflexivity).
  assert (H8 : fst (run Scenario.env_ok
                      (_create_chat Scenario.cog Scenario.T8 "t") Scenario.st0)
               = Ok (Chat_new (Chat_cls Scenario.cog) "t" Scenario.T8 0))
    by (vm_compute; reflexivity).
  cbv zeta. split; [reflexivity |].
  split; [exact H7 |]. split; [| split; [exact H8 |]].
  - destruct (history_load_iff_prior_messages Scenario.cog Scenario.env_ok
                Scenario.st0 Scenario.T7 (title Scenario.session7) eq_refl)
      as (H & _).
    destruct (H _ H7) as [Hload _]. apply Hload. reflexivity.
  - destruct (history_load_iff_prior_messages Scenario.cog Scenario.env_ok
                Scenario.st0 Scenario.T8 "t" eq_refl) as (H & _).
    destruct (H _ H8) as [_ Hnone]. split; [apply Hnone; discriminate |].
    destruct (history_load_iff_prior_messages Scenario.cog Scenario.env_ok
                Scenario.st0 Scenario.T7 (title Scenario.session7) eq_refl)
      as (_ & _ & _ & _ & _ & Hsession & _).
    destruct (Hsession _ H7) as (_ & Hfiled & Htrace).
    split; [exact Hfiled |].
    destruct (Htrace eq_refl) as (notice & bot_response & Hevents).
    rewrite Hevents. reflexivity.
Defined.

(** ** Dispatch of a turn *)




(** ** The reaction trigger *)

(** C9.  A reaction added by the bot itself, with another emoji, or by a
    user who is not an admin is dropped: the handler returns normally, the
    registry and the assistants are unchanged, and the trace gains at most
    one line of the log at level INFO; so nothing is asked of the platform
    (no thread, no message) and nothing is logged as an error or printed. *)
Theorem unauthorized_reaction_is_ignored self env st payload :
  payload_user_id payload = user_id (discord_bot_user self)
  \/ payload_emoji_name payload <> BRAIN
  \/ payload_user_id payload ∉ admin_users self ->
  exists st',
    run env (on_raw_reaction_add self payload) st = (Ok tt, st') /\
    _active_threads st' = _active_threads st /\
    assistants st' = assistants st /\
    (trace st' = trace st \/
     trace st' =
       (trace st
        ++ [EvLog INFO ("User " ++ pretty (payload_user_id payload)
                        ++ " is not an admin user")%string])%list) /\
    count_events is_io (trace st') = count_events is_io (trace st) /\
    count_events is_error_log (trace st') = count_events is_error_log (trace st).
Proof.
  intros Hwho. unfold on_raw_reaction_add. rewrite run_try_except.
  case_bool_decide as Hbot; simpl.
  { eexists; repeat split; auto. }
  case_bool_decide as Hemoji; simpl.
  2: { eexists; repeat split; auto. }
  case_bool_decide as Hadmin; simpl.
  { destruct Hwho as [? | [? | ?]]; contradiction. }
  eexists. split; [reflexivity |]. simpl.
  repeat split; auto; rewrite count_events_app; unfold count_events; simpl; lia.
Qed.

Lemma unauthorized_reaction_is_ignored_witness :
  exists st',
    run Scenario.env_ok
      (on_raw_reaction_add Scenario.cog (Scenario.reaction 66 BRAIN))
      Scenario.st0 = (Ok tt, st') /\
    _active_threads st' = _active_threads Scenario.st0 /\
    assistants st' = assistants Scenario.st0 /\
    (trace st' = trace Scenario.st0 \/
     trace st' =
       (trace Scenario.st0
        ++ [EvLog INFO ("User " ++ pretty 66 ++ " is not an admin user")%string])%list) /\
    count_events is_io (trace st') = count_events is_io (trace Scenario.st0) /\
    count_events is_error_log (trace st')
      = count_events is_error_log (trace Scenario.st0).
Proof.
  apply (unauthorized_reaction_is_ignored Scenario.cog Scenario.env_ok
           Scenario.st0 (Scenario.reaction 66 BRAIN)).
  right; right. compute_done.
Defined.

(** ** Messages in a thread *)

(** C10, as the code has it.  A message with empty text, written by
    someone else than the bot in a thread the bot owns, makes [on_message]
    raise [IndexError]: the test for the prefix [~] reads the first
    character of the text.  Nothing but the log line of the reception
    happens before, and nothing catches the exception. *)
Theorem on_message_empty_text_raises_IndexError self env st message thread :
  user_id (author message) <> user_id (discord_bot_user self) ->
  channel message = ThreadChannel thread ->
  thread_owner_id thread = user_id (discord_bot_user self) ->
  content message = EmptyString ->
  run env (on_message self message) st =
  (Err IndexError,
   record (EvLog INFO ("Received message: " ++ content message)) st).
Proof.
  intros Hauthor Hchannel Howner Hcontent.
  unfold on_message. simpl.
  rewrite bool_decide_false by exact Hauthor.
  rewrite Hchannel. rewrite bool_decide_true by exact Howner. simpl.
  rewrite Hcontent. simpl. reflexivity.
Qed.

Lemma on_message_empty_text_raises_IndexError_witness :
  run Scenario.env_ok (on_message Scenario.cog Scenario.attachment_only)
    Scenario.st_with_7 =
  (Err IndexError,
   record (EvLog INFO ("Received message: "
                       ++ content Scenario.attachment_only))
     Scenario.st_with_7).
Proof.
  apply (on_message_empty_text_raises_IndexError Scenario.cog Scenario.env_ok
           Scenario.st_with_7 Scenario.attachment_only Scenario.T7).
  - compute_done.
  - reflexivity.
  - reflexivity.
  - reflexivity.
Defined.

(** C10, as the claim words it, fails for the messages of the bot itself:
    thread 7 is owned by the bot and the message has no text, but its
    author is the bot, so [on_message] returns at its first test, before
    the text is read, and nothing is raised. *)
Lemma own_empty_message_counterexample :
  thread_owner_id Scenario.T7 = user_id (discord_bot_user Scenario.cog) /\
  channel Cases.own_embed = ThreadChannel Scenario.T7 /\
  content Cases.own_embed = EmptyString /\
  run Scenario.env_ok (on_message Scenario.cog Cases.own_embed)
    Scenario.st_with_7
  = (Ok tt, record (EvLog INFO "Received message: ") Scenario.st_with_7).
Proof. vm_compute. repeat split; reflexivity. Qed.

(** ** Life of a registry entry *)


(** ** The defaults of [Chat] *)

(** A session that [_create_chat] builds carries the two defaults of the
    class, whatever the clock and the uuid source say at that moment. *)
Lemma create_chat_new_session self env st thread title chat st' :
  _active_threads st !! thread_id thread = None ->
  run env (_create_chat self thread title) st = (Ok chat, st') ->
  chat = Chat_new (Chat_cls self) title thread (assistants st) /\
  _active_threads st' = <[thread_id thread := chat]> (_active_threads st).
Proof.
  intros Hreg. unfold _create_chat, contains. simpl. rewrite Hreg. simpl.
  case_bool_decide; simpl.
  - repeat (io_case; [| discriminate]).
    intros [= <- <-]. simpl. auto.
  - intros [= <- <-]. simpl. auto.
Qed.

(** C8 fails on the code.  Two sessions are created, one at second 10 in
    thread 7 and one at second 1000010 in thread 8; the clock and the uuid
    source have moved on in between, yet both sessions carry the instant
    and the identifier that were computed when the class was defined. *)
Theorem chats_share_class_defaults :
  let st1 :=
    run_events Scenario.cog Scenario.env_ok [MessageCreate Scenario.hi]
      Scenario.st0 in
  let st2 :=
    run_events Scenario.cog Scenario.env_ok [MessageCreate Scenario.later] st1 in
  exists c7 c8,
    _active_threads st2 !! 7 = Some c7 /\
    _active_threads st2 !! 8 = Some c8 /\
    assistant c7 <> assistant c8 /\
    started_at c7 = started_at c8 /\
    chat_id c7 = chat_id c8 /\
    started_at c7 = env_now Scenario.env_ok [] /\
    chat_id c7 = env_uuid4 Scenario.env_ok [] /\
    env_now Scenario.env_ok [] < env_now Scenario.env_ok (trace st1) /\
    env_now Scenario.env_ok (trace st1) < env_now Scenario.env_ok (trace st2) /\
    env_uuid4 Scenario.env_ok (trace st1) <> env_uuid4 Scenario.env_ok [].
Proof.
  eexists _, _. vm_compute.
  repeat split; try reflexivity; discriminate.
Qed.

(** ** Concurrent triggers *)

(** The first step of a handler, on a thread that has earlier messages and
    no session: the guard of [_create_chat] is passed, an assistant is
    built, and the handler is suspended on the notice it sends, with the
    registry still unwritten. *)
Lemma first_step_passes_guard self env st message thread :
  for_the_bot self message thread ->
  _active_threads st !! thread_id thread = None ->
  0 < message_count thread ->
  _active_threads (snd (step_task env (on_message self message) st))
    = _active_threads st /\
  assistants (snd (step_task env (on_message self message) st))
    = S (assistants st).
Proof.
  intros (Hauthor & Hchannel & Howner & c0 & rest & Hcontent & Hfirst)
    Hreg Hcount.
  unfold step_task, on_message.
  remember _async_send_message_to_bot as dispatch eqn:Hdispatch. simpl.
  rewrite bool_decide_false by exact Hauthor.
  rewrite Hchannel. rewrite bool_decide_true by exact Howner. simpl.
  rewrite Hcontent. simpl.
  rewrite bool_decide_false by exact Hfirst.
  unfold getitem. simpl. rewrite Hreg. simpl.
  unfold _create_chat, contains. simpl. rewrite Hreg. simpl.
  rewrite bool_decide_true by exact Hcount. simpl. auto.
Qed.

(** So two such handlers that the event loop starts one after the other
    build two assistants, whatever the platform and the model answer. *)
Lemma two_started_handlers_build_two_assistants self env st m1 m2 thread :
  for_the_bot self m1 thread ->
  for_the_bot self m2 thread ->
  _active_threads st !! thread_id thread = None ->
  0 < message_count thread ->
  assistants
    (snd (run_schedule env [0; 1]%nat
            [on_message self m1; on_message self m2] st))
  = S (S (assistants st)).
Proof.
  intros H1 H2 Hreg Hcount. simpl.
  destruct (first_step_passes_guard self env st m1 thread H1 Hreg Hcount)
    as [Ha Hb].
  destruct (step_task env (on_message self m1) st) as [c1 st1]. simpl in *.
  assert (Hreg1 : _active_threads st1 !! thread_id thread = None)
    by (rewrite Ha; exact Hreg).
  destruct (first_step_passes_guard self env st1 m2 thread H2 Hreg1 Hcount)
    as [Hc Hd].
  destruct (step_task env (on_message self m2) st1) as [c2 st2]. simpl in *.
  rewrite Hd, Hb. reflexivity.
Qed.

(** C2 fails on the code.  Two messages arrive in thread 7, which has
    earlier messages and no session yet.  When the event loop alternates
    between the two handlers, each finds the registry empty before the
    other has written it: two assistants are built, the history is loaded
    twice, each message is answered by another assistant, and the registry
    keeps the session written last.  Handled one after the other, the same
    two messages share one session. *)
Theorem concurrent_messages_create_two_sessions :
  let tasks :=
    [on_message Scenario.cog Scenario.hi;
     on_message Scenario.cog Scenario.more] in
  let out := run_schedule Scenario.env_ok Scenario.alternate tasks Scenario.st0 in
  let seq :=
    run_events Scenario.cog Scenario.env_ok
      [MessageCreate Scenario.hi; MessageCreate Scenario.more] Scenario.st0 in
  (map finished (fst out) = [true; true] /\
   assistants (snd out) = 2%nat /\
   loads (snd out) = 2%nat /\
   omap turn_of_event (trace (snd out))
     = [(0%nat, TIME_PASSED_MESSAGE); (1%nat, TIME_PASSED_MESSAGE);
        (0%nat, "hi"); (1%nat, "tell me more")] /\
   assistant <$> (_active_threads (snd out) !! 7) = Some 1%nat) /\
  (assistants seq = 1%nat /\
   loads seq = 1%nat /\
   omap turn_of_event (trace seq)
     = [(0%nat, TIME_PASSED_MESSAGE); (0%nat, "hi"); (0%nat, "tell me more")]).
Proof. vm_compute. repeat split; reflexivity. Qed.

(** ** The triggers that do start a session *)

(** The brain reaction of an admin spawns a thread on the message, creates
    its session and sends the text of the message as the first turn. *)
Example admin_reaction_spawns_session :
  let st1 :=
    run_events Scenario.cog Scenario.env_ok
      [ReactionAdd (Scenario.reaction 42 BRAIN)] Scenario.st0 in
  assistant <$> (_active_threads st1 !! 600) = Some 0%nat /\
  omap turn_of_event (trace st1) = [(0%nat, "hello")] /\
  omap shown_text (trace st1) = [AWAITING_BOT_RESPONSE; "reply"].
Proof. vm_compute. repeat split; reflexivity. Qed.

(** The slash command works in an allowed channel only. *)
Example slash_command_in_allowed_channel :
  let ctx c := {| ctx_channel_id := c; ctx_user := Scenario.alice |} in
  let st1 :=
    run_events Scenario.cog Scenario.env_ok [SlashChat (ctx 100) None]
      Scenario.st0 in
  let st2 :=
    run_events Scenario.cog Scenario.env_ok [SlashChat (ctx 101) None]
      Scenario.st0 in
  (assistants st1 = 1%nat /\
   omap turn_of_event (trace st1)
     = [(0%nat, "A human has requested a chat!")]) /\
  (assistants st2 = 0%nat /\ count_events is_io (trace st2) = 0%nat).
Proof. vm_compute. repeat split; reflexivity. Qed.

(** A message that starts with [~] is not for the bot. *)
Example tilde_message_is_skipped :
  let st1 :=
    run_events Scenario.cog Scenario.env_ok
      [MessageCreate (Scenario.message_in Scenario.T7 504 "~ aside" 13)]
      Scenario.st_with_7 in
  count_events is_io (trace st1) = 0%nat /\
  _active_threads st1 !! 7 = Some Scenario.session7.
Proof. vm_compute. repeat split; reflexivity. Qed.

(** * Further properties *)

(** ** One handler and the registry *)

Lemma same_cog_record ev st : same_cog st (record ev st).
Proof. split; reflexivity. Qed.

Lemma same_cog_trans st1 st2 st3 :
  same_cog st1 st2 -> same_cog st2 st3 -> same_cog st1 st3.
Proof. intros [A B] [C D]. split; congruence. Qed.

Lemma same_cog_step self st st' : same_cog st st' -> registry_step self st st'.
Proof. intros [A B]. left. auto. Qed.

Lemma step_after_same self st1 st2 st3 :
  same_cog st1 st2 -> registry_step self st2 st3 -> registry_step self st1 st3.
Proof.
  intros [A B] [[C D] | (thread & title & C & D & E)].
  - left. rewrite C, A, B in *. auto.
  - right. exists thread, title. rewrite A, B in *. auto.
Qed.

Lemma same_after_step self st1 st2 st3 :
  registry_step self st1 st2 -> same_cog st2 st3 -> registry_step self st1 st3.
Proof.
  intros [[C D] | (thread & title & C & D & E)] [A B].
  - left. rewrite A, B, C. auto.
  - right. exists thread, title. rewrite A, B. auto.
Qed.

Lemma dispatch_same_cog env chat input_text st :
  same_cog st (snd (run env (_async_send_message_to_bot chat input_text) st)).
Proof. apply dispatch_registry. Qed.

Lemma create_chat_registered_run self env st thread title chat :
  _active_threads st !! thread_id thread = Some chat ->
  run env (_create_chat self thread title) st =
  (Ok chat,
   record (EvLog WARNING ("Thread " ++ pretty (thread_id thread)
                          ++ " already exists! Returning existing chat")) st).
Proof.
  intros Hreg. unfold _create_chat, contains, getitem. simpl.
  rewrite Hreg. simpl. rewrite Hreg. reflexivity.
Qed.

Lemma create_chat_absent_cases self env st thread title :
  _active_threads st !! thread_id thread = None ->
  let out := run env (_create_chat self thread title) st in
  let chat := Chat_new (Chat_cls self) title thread (assistants st) in
  assistants (snd out) = S (assistants st) /\
  ((fst out = Ok chat /\
    _active_threads (snd out) = <[thread_id thread := chat]> (_active_threads st))
   \/
   (exists e, fst out = Err e /\
              _active_threads (snd out) = _active_threads st)).
Proof.
  intros Hreg. unfold _create_chat, contains. simpl. rewrite Hreg. simpl.
  case_bool_decide; simpl.
  - repeat (io_case; [| split; [reflexivity | right; eauto]]).
    split; [reflexivity | left; auto].
  - split; [reflexivity | left; auto].
Qed.

Lemma create_chat_step self env st thread title :
  let out := run env (_create_chat self thread title) st in
  registry_step self st (snd out) /\
  (forall chat, fst out = Ok chat ->
     _active_threads (snd out) !! thread_id thread = Some chat).
Proof.
  destruct (_active_threads st !! thread_id thread) as [c |] eqn:Hreg.
  - rewrite (create_chat_registered_run self env st thread title c Hreg). simpl.
    split; [left; auto |]. intros chat [= <-]. exact Hreg.
  - pose proof (create_chat_absent_cases self env st thread title Hreg) as H.
    cbv zeta in *. destruct H as [Hn [[Hok Hins] | (e & Herr & Hsame)]].
    + split.
      * right. exists thread, title. auto.
      * intros chat Hc. rewrite Hok in Hc. injection Hc as <-.
        rewrite Hins. apply lookup_insert_eq.
    + split; [left; auto |]. intros chat Hc. rewrite Herr in Hc. discriminate.
Qed.

(** [on_message], case by case. *)
Lemma on_message_guards self env st message :
  let st1 := record (EvLog INFO ("Received message: " ++ content message)) st in
  (user_id (author message) = user_id (discord_bot_user self) ->
   run env (on_message self message) st = (Ok tt, st1)) /\
  (forall c, channel message = TextChannel c ->
   run env (on_message self message) st = (Ok tt, st1)) /\
  (forall thread, channel message = ThreadChannel thread ->
   thread_owner_id thread <> user_id (discord_bot_user self) ->
   run env (on_message self message) st = (Ok tt, st1)) /\
  (forall thread rest,
   user_id (author message) <> user_id (discord_bot_user self) ->
   channel message = ThreadChannel thread ->
   thread_owner_id thread = user_id (discord_bot_user self) ->
   content message = String "~" rest ->
   run env (on_message self message) st = (Ok tt, st1)) /\
  (forall thread,
   user_id (author message) <> user_id (discord_bot_user self) ->
   channel message = ThreadChannel thread ->
   thread_owner_id thread = user_id (discord_bot_user self) ->
   content message = EmptyString ->
   run env (on_message self message) st = (Err IndexError, st1)).
Proof.
  unfold on_message.
  remember _async_send_message_to_bot as dispatch eqn:Hdispatch.
  remember (_create_chat self) as create eqn:Hcreate. simpl.
  repeat split.
  - intros H. rewrite bool_decide_true by exact H. reflexivity.
  - intros c H. rewrite H. case_bool_decide; reflexivity.
  - intros thread H Howner. rewrite H.
    rewrite (bool_decide_false _ Howner). simpl. case_bool_decide; reflexivity.
  - intros thread rest Hauthor H Howner Hcontent.
    rewrite bool_decide_false by exact Hauthor.
    rewrite H. rewrite bool_decide_true by exact Howner. simpl.
    rewrite Hcontent. simpl. reflexivity.
  - intros thread Hauthor H Howner Hcontent.
    rewrite bool_decide_false by exact Hauthor.
    rewrite H. rewrite bool_decide_true by exact Howner. simpl.
    rewrite Hcontent. simpl. reflexivity.
Qed.

Lemma on_message_unregistered self env st message thread :
  for_the_bot self message thread ->
  _active_threads st !! thread_id thread = None ->
  run env (on_message self message) st =
  match
    run env
      (_create_chat self thread
         (_create_chat_title_string self (user_str (author message))))
      (record (EvLog INFO ("Received message: " ++ content message)) st)
  with
  | (Ok chat, st1) =>
      run env (_async_send_message_to_bot chat (content message))
        (record (EvLog INFO ("Sending message to the agent: "
                             ++ content message)) st1)
  | (Err e, st1) => (Err e, st1)
  end.
Proof.
  intros (Hauthor & Hchannel & Howner & c0 & rest & Hcontent & Hfirst) Hreg.
  unfold on_message.
  remember _async_send_message_to_bot as dispatch eqn:Hdispatch.
  remember (_create_chat self) as create eqn:Hcreate. simpl.
  rewrite bool_decide_false by exact Hauthor.
  rewrite Hchannel. rewrite bool_decide_true by exact Howner. simpl.
  rewrite Hcontent. simpl.
  rewrite bool_decide_false by exact Hfirst.
  simpl. rewrite Hreg. simpl. rewrite run_bind.
  destruct (run env (create thread _) _) as [[chat | e] st1]; reflexivity.
Qed.

Lemma on_message_step self env st message :
  registry_step self st (snd (run env (on_message self message) st)).
Proof.
  set (st1 := record (EvLog INFO ("Received message: " ++ content message)) st).
  assert (Hlog : same_cog st st1) by apply same_cog_record.
  destruct (on_message_guards self env st message)
    as (Hbot & Htext & Hown & Htilde & Hempty).
  fold st1 in Hbot, Htext, Hown, Htilde, Hempty.
  destruct (decide (user_id (author message) = user_id (discord_bot_user self)))
    as [Hauthor | Hauthor].
  { rewrite (Hbot Hauthor). apply same_cog_step, Hlog. }
  destruct (channel message) as [c | thread] eqn:Hchannel.
  { rewrite (Htext c eq_refl). apply same_cog_step, Hlog. }
  destruct (decide (thread_owner_id thread = user_id (discord_bot_user self)))
    as [Howner | Howner].
  2: { rewrite (Hown thread eq_refl Howner). apply same_cog_step, Hlog. }
  destruct (content message) as [| c0 rest] eqn:Hcontent.
  { rewrite (Hempty thread Hauthor eq_refl Howner eq_refl).
    apply same_cog_step, Hlog. }
  destruct (decide (c0 = "~"%char)) as [-> | Hfirst].
  { rewrite (Htilde thread rest Hauthor eq_refl Howner eq_refl).
    apply same_cog_step, Hlog. }
  assert (Hfor : for_the_bot self message thread).
  { repeat split; trivial. exists c0, rest. auto. }
  destruct (_active_threads st !! thread_id thread) as [chat |] eqn:Hreg.
  - rewrite (on_message_registered self env st message thread chat c0 rest);
      trivial.
    apply same_cog_step.
    eapply same_cog_trans; [| apply dispatch_same_cog].
    eapply same_cog_trans; [exact Hlog |]. rewrite Hcontent. apply same_cog_record.
  - rewrite (on_message_unregistered self env st message thread Hfor Hreg).
    rewrite Hcontent. fold st1.
    destruct (create_chat_step self env st1 thread
                (_create_chat_title_string self (user_str (author message))))
      as [Hstep _].
    destruct (run env (_create_chat self thread _) st1) as [[chat | e] st2];
      simpl in Hstep.
    + eapply same_after_step; [eapply step_after_same; eassumption |].
      eapply same_cog_trans; [apply same_cog_record | apply dispatch_same_cog].
    + simpl. eapply step_after_same; eassumption.
Qed.

Lemma spawn_thread_step self env st message initial_text_input :
  registry_step self st
    (snd (run env (_spawn_thread self message initial_text_input) st)).
Proof.
  unfold _spawn_thread.
  remember _async_send_message_to_bot as dispatch eqn:Hdispatch.
  remember (_create_chat self) as create eqn:Hcreate. simpl.
  io_case; [| apply same_cog_step, same_cog_record].
  rewrite run_bind. subst create.
  match goal with
  | |- context [run env (_create_chat self ?t ?ti) ?s] =>
      destruct (create_chat_step self env s t ti) as [Hstep _];
      destruct (run env (_create_chat self t ti) s) as [[chat | e] st2]
  end; simpl in Hstep.
  2: { simpl. eapply step_after_same; [apply same_cog_record | exact Hstep]. }
  eapply same_after_step;
    [eapply step_after_same; [apply same_cog_record | exact Hstep] |].
  destruct initial_text_input as [text |]; simpl.
  - subst dispatch. apply dispatch_same_cog.
  - io_case; subst dispatch.
    + eapply same_cog_trans; [apply same_cog_record | apply dispatch_same_cog].
    + apply same_cog_record.
Qed.

Lemma chat_step self env st ctx initial_text_input :
  registry_step self st (snd (run env (chat self ctx initial_text_input) st)).
Proof.
  unfold chat, _make_title_card_embed.
  remember (_spawn_thread self) as spawn eqn:Hspawn.
  case_bool_decide; simpl; [| apply same_cog_step, same_cog_record].
  io_case; [| apply same_cog_step; split; reflexivity].
  subst spawn.
  eapply step_after_same; [| apply spawn_thread_step].
  split; reflexivity.
Qed.

Lemma reaction_step self env st payload :
  registry_step self st (snd (run env (on_raw_reaction_add self payload) st)).
Proof.
  unfold on_raw_reaction_add.
  remember (_spawn_thread self) as spawn eqn:Hspawn.
  rewrite run_try_except.
  case_bool_decide; simpl; [apply same_cog_step; split; reflexivity |].
  case_bool_decide; simpl; [| apply same_cog_step; split; reflexivity].
  case_bool_decide; simpl; [| apply same_cog_step, same_cog_record].
  io_case; [| apply same_cog_step; split; reflexivity].
  subst spawn.
  match goal with
  | |- context [run env (_spawn_thread self ?m ?t) ?s] =>
      pose proof (spawn_thread_step self env s m t) as Hstep;
      destruct (run env (_spawn_thread self m t) s) as [[[] | e] st2]
  end; simpl in *.
  - eapply step_after_same; [apply same_cog_record | exact Hstep].
  - eapply same_after_step; [| apply same_cog_record].
    eapply step_after_same; [apply same_cog_record | exact Hstep].
Qed.

Lemma handler_step self env st ev :
  registry_step self st (snd (run env (handler self ev) st)).
Proof.
  destruct ev; simpl.
  - apply chat_step.
  - apply reaction_step.
  - apply on_message_step.
Qed.

Lemma registry_step_keeps self st st' key chat :
  registry_step self st st' ->
  _active_threads st !! key = Some chat ->
  _active_threads st' !! key = Some chat.
Proof.
  intros [[Hsame _] | (thread & title & Hnone & Hins & _)] Hreg.
  - rewrite Hsame. exact Hreg.
  - rewrite Hins. rewrite lookup_insert_ne; trivial.
    intros <-. congruence.
Qed.

Lemma registry_step_assistants self st st' :
  registry_step self st st' -> (assistants st <= assistants st')%nat.
Proof.
  intros [[_ [H | H]] | (thread & title & _ & _ & H)]; rewrite H; lia.
Qed.

Lemma registry_step_built self st st' :
  registry_step self st st' -> built_by_cog self st -> built_by_cog self st'.
Proof.
  intros Hstep [Hshape Hdistinct].
  pose proof (registry_step_assistants self st st' Hstep) as Hle.
  destruct Hstep as [[Hsame _] | (thread & title & Hnone & Hins & Hn)].
  - split.
    + intros key chat Hreg. rewrite Hsame in Hreg.
      destruct (Hshape key chat Hreg) as (A & B & C). repeat split; trivial. lia.
    + intros key1 key2 chat1 chat2. rewrite Hsame. apply Hdistinct.
  - assert (Hlook : forall key chat,
              _active_threads st' !! key = Some chat ->
              (key = thread_id thread /\
               chat = Chat_new (Chat_cls self) title thread (assistants st))
              \/ (key <> thread_id thread /\
                  _active_threads st !! key = Some chat)).
    { intros key chat. rewrite Hins.
      destruct (decide (thread_id thread = key)) as [<- | Hne].
      - rewrite lookup_insert_eq. intros [= <-]. left. auto.
      - rewrite lookup_insert_ne by exact Hne. intros H. right. auto. }
    split.
    + intros key chat Hreg.
      destruct (Hlook key chat Hreg) as [[-> ->] | [_ Hold]].
      * simpl. repeat split. lia.
      * destruct (Hshape key chat Hold) as (A & B & C). repeat split; trivial. lia.
    + intros key1 key2 chat1 chat2 H1 H2 Heq.
      destruct (Hlook key1 chat1 H1) as [[-> ->] | [_ Hold1]];
        destruct (Hlook key2 chat2 H2) as [[-> ->] | [_ Hold2]]; trivial.
      * destruct (Hshape key2 chat2 Hold2) as (_ & _ & C). simpl in Heq. lia.
      * destruct (Hshape key1 chat1 Hold1) as (_ & _ & C). simpl in Heq. lia.
      * eapply Hdistinct; eassumption.
Qed.

(** A handler only adds to the trace. *)
Lemma do_action_trace_extends env {X} (a : Action X) st :
  exists more, trace (snd (do_action env a st)) = (trace st ++ more)%list.
Proof.
  destruct a; simpl; eauto; exists []; rewrite app_nil_r; reflexivity.
Qed.

Lemma run_trace_extends {A} env (c : Coro A) st :
  exists more, trace (snd (run env c st)) = (trace st ++ more)%list.
Proof.
  revert st.
  induction c as [a | e | X a k IH | X r k IH]; intros st; simpl.
  - exists []. rewrite app_nil_r. reflexivity.
  - exists []. rewrite app_nil_r. reflexivity.
  - destruct (do_action_trace_extends env a st) as [m1 H1].
    destruct (do_action env a st) as [x st1]. simpl in H1.
    destruct (IH x st1) as [m2 H2]. exists (m1 ++ m2)%list.
    rewrite H2, H1, app_assoc. reflexivity.
  - destruct (IH (env_io env (trace st) X r)
                (record (EvIO r (env_io env (trace st) X r)) st)) as [m2 H2].
    eexists. rewrite H2. simpl. rewrite <- app_assoc. reflexivity.
Qed.

Lemma turns_record ev st :
  turns (record ev st)
  = (turns st ++ match turn_of_event ev with Some t => [t] | None => [] end)%list.
Proof.
  unfold turns. simpl. rewrite omap_app. simpl.
  destruct (turn_of_event ev); reflexivity.
Qed.

Lemma shown_record ev st :
  shown (record ev st)
  = (shown st ++ match shown_text ev with Some t => [t] | None => [] end)%list.
Proof.
  unfold shown. simpl. rewrite omap_app. simpl.
  destruct (shown_text ev); reflexivity.
Qed.

(** Unfolds what a finished run has added to the turns and to the texts
    shown. *)
Ltac observe :=
  rewrite ?turns_record, ?shown_record; simpl; rewrite ?app_nil_r, <- ?app_assoc;
  simpl.

(** ** The slash command *)

(** X1.  The slash command used in a channel that is not allowed does
    nothing but write one line to the log; used in an allowed channel it
    sends the title card, headed by the title of the chat, to the channel
    of the command. *)
Theorem chat_needs_an_allowed_channel self env st ctx initial_text_input :
  (ctx_channel_id ctx ∉ _allowed_channels self ->
   run env (chat self ctx initial_text_input) st =
   (Ok tt,
    record (EvLog INFO ("Channel " ++ pretty (ctx_channel_id ctx)
                        ++ " is not allowed to start a chat")) st)) /\
  (ctx_channel_id ctx ∈ _allowed_channels self ->
   exists card answer,
     EvIO (CtxSend ctx card) answer
       ∈ trace (snd (run env (chat self ctx initial_text_input) st)) /\
     embed_title card
       = Some (_create_chat_title_string self (user_str (ctx_user ctx)))).
Proof.
  split; intros Hchannel.
  - unfold chat. rewrite bool_decide_false by exact Hchannel. reflexivity.
  - unfold chat, _make_title_card_embed.
    remember (_spawn_thread self) as spawn eqn:Hspawn.
    rewrite bool_decide_true by exact Hchannel. simpl.
    match goal with
    | |- context [EvIO (CtxSend ctx ?card) (env_io ?e ?t ?X ?r)] =>
        exists card, (env_io e t X r)
    end.
    split; [| reflexivity].
    match goal with
    | |- _ ∈ trace (snd (run env ?c ?s)) =>
        destruct (run_trace_extends env c s) as [more Hmore]; rewrite Hmore
    end.
    simpl. rewrite !elem_of_app. left. right. apply list_elem_of_singleton.
    reflexivity.
Qed.

(** ** Messages the bot does not answer *)

(** X2.  [on_message] leaves alone a message of the bot itself, a message
    outside a thread, a message in a thread the bot does not own, and a
    message whose text starts with [~]: it returns normally and the trace
    gains the line of the reception only, whatever the text otherwise is
    (an empty text of the bot itself does not raise). *)
Theorem on_message_leaves_alone self env st message :
  user_id (author message) = user_id (discord_bot_user self)
  \/ (exists c, channel message = TextChannel c)
  \/ (exists thread, channel message = ThreadChannel thread /\
        thread_owner_id thread <> user_id (discord_bot_user self))
  \/ (exists rest, content message = String "~" rest) ->
  run env (on_message self message) st =
  (Ok tt, record (EvLog INFO ("Received message: " ++ content message)) st).
Proof.
  destruct (on_message_guards self env st message)
    as (Hbot & Htext & Hown & Htilde & _).
  intros [Hauthor | [[c Hc] | [(thread & Hc & Howner) | [rest Hrest]]]].
  - apply Hbot, Hauthor.
  - apply (Htext c Hc).
  - apply (Hown thread Hc Howner).
  - destruct (decide (user_id (author message)
                      = user_id (discord_bot_user self))) as [Ha | Ha].
    { apply Hbot, Ha. }
    destruct (channel message) as [c | thread] eqn:Hc.
    { apply (Htext c eq_refl). }
    destruct (decide (thread_owner_id thread
                      = user_id (discord_bot_user self))) as [Ho | Ho].
    + apply (Htilde thread rest Ha eq_refl Ho Hrest).
    + apply (Hown thread eq_refl Ho).
Qed.

(** ** The reaction handler *)

(** X3.  [on_raw_reaction_add] never raises: whatever the reaction and
    whatever the platform and the model answer, it returns normally.  When
    the message of an admin's brain reaction cannot be fetched, the
    exception is printed after the word Error and nothing else happens. *)
Theorem on_raw_reaction_add_never_raises self env st payload :
  fst (run env (on_raw_reaction_add self payload) st) = Ok tt /\
  (forall e,
     payload_user_id payload <> user_id (discord_bot_user self) ->
     payload_emoji_name payload = BRAIN ->
     payload_user_id payload ∈ admin_users self ->
     env_io env (trace st) _
       (FetchMessage (payload_channel_id payload) (payload_message_id payload))
       = Err e ->
     run env (on_raw_reaction_add self payload) st =
     (Ok tt,
      record (EvPrint ("Error: " ++ exn_str e))
        (record
           (EvIO (FetchMessage (payload_channel_id payload)
                    (payload_message_id payload)) (Err e)) st))).
Proof.
  split.
  - unfold on_raw_reaction_add. rewrite run_try_except.
    match goal with
    | |- context [run env ?c st] => destruct (run env c st) as [[[] | e] st1]
    end; reflexivity.
  - intros e Hbot Hemoji Hadmin Hfetch.
    unfold on_raw_reaction_add.
    remember (_spawn_thread self) as spawn eqn:Hspawn.
    rewrite run_try_except.
    rewrite bool_decide_false by exact Hbot.
    rewrite bool_decide_true by exact Hemoji.
    rewrite bool_decide_true by exact Hadmin. simpl.
    rewrite Hfetch. simpl. reflexivity.
Qed.

(** ** Creation of a session *)

(** X4.  When [_create_chat] succeeds on a thread that had no session, the
    session it returns is new: built around the assistant constructed in
    this call, with the title and the thread given.  It is in the registry
    under the id of the thread, and the entries of the other threads are
    untouched. *)
Theorem create_chat_registers_new_session self env st thread title chat st' :
  _active_threads st !! thread_id thread = None ->
  run env (_create_chat self thread title) st = (Ok chat, st') ->
  chat = Chat_new (Chat_cls self) title thread (assistants st) /\
  assistants st' = S (assistants st) /\
  _active_threads st' !! thread_id thread = Some chat /\
  (forall key, key <> thread_id thread ->
     _active_threads st' !! key = _active_threads st !! key).
Proof.
  intros Hreg Hrun.
  pose proof (create_chat_absent_cases self env st thread title Hreg) as H.
  cbv zeta in H. rewrite Hrun in H. simpl in H.
  destruct H as [Hn [[Hok Hins] | (e & Herr & _)]]; [| discriminate].
  injection Hok as ->. repeat split; trivial.
  - rewrite Hins. apply lookup_insert_eq.
  - intros key Hne. rewrite Hins. apply lookup_insert_ne. congruence.
Qed.

(** X5.  Two calls of [_create_chat] for the same thread, one after the
    other: when the first returns a session, the second returns the same
    session, whatever title it is given, and changes neither the registry
    nor the number of assistants. *)
Theorem create_chat_twice_gives_one_session
    self env st thread title1 title2 chat st1 :
  run env (_create_chat self thread title1) st = (Ok chat, st1) ->
  exists st2,
    run env (_create_chat self thread title2) st1 = (Ok chat, st2) /\
    _active_threads st2 = _active_threads st1 /\
    assistants st2 = assistants st1.
Proof.
  intros Hrun.
  destruct (create_chat_step self env st thread title1) as [_ Hin].
  rewrite Hrun in Hin. simpl in Hin. specialize (Hin chat eq_refl).
  rewrite (create_chat_registered_run self env st1 thread title2 chat Hin).
  eexists. split; [reflexivity |]. split; reflexivity.
Qed.

(** X6.  On a thread with earlier messages and no session, a creation
    that succeeds has shown three texts in the thread, in this order: the
    notice of the reload, the notice with the prompt given to the bot and
    three dots, and the same with the answer of the model; the one turn it
    has handed to the model is that prompt, addressed to the new
    assistant.  The answer that is shown is the one the model gave to that
    turn: the requests of the creation are the notice, the load, the first
    edit, the exchange and the second edit, and the text of the second
    edit ends with the answer of the exchange. *)
Theorem create_chat_reload_is_shown self env st thread title chat st' :
  _active_threads st !! thread_id thread = None ->
  0 < message_count thread ->
  run env (_create_chat self thread title) st = (Ok chat, st') ->
  exists notice bot_response,
    trace st'
    = (trace st
       ++ [EvIO (ThreadSend thread RELOADING_MEMORY) (Ok notice);
           EvIO (LoadMemoryFromThread (assistants st) thread
                   (user_str (discord_bot_user self))) (Ok tt);
           EvIO (MessageEdit notice
                   (MEMORY_RELOADED_PREFIX ++ nl ++ nl ++ "...")%string)
             (Ok tt);
           EvIO (AsyncProcessInput (assistants st) TIME_PASSED_MESSAGE)
             (Ok bot_response);
           EvIO (MessageEdit notice
                   (MEMORY_RELOADED_PREFIX ++ nl ++ nl ++ bot_response)%string)
             (Ok tt)])%list /\
    shown st'
    = (shown st
       ++ [RELOADING_MEMORY;
           (MEMORY_RELOADED_PREFIX ++ nl ++ nl ++ "...")%string;
           (MEMORY_RELOADED_PREFIX ++ nl ++ nl ++ bot_response)%string])%list /\
    turns st' = (turns st ++ [(assistants st, TIME_PASSED_MESSAGE)])%list /\
    loads st' = S (loads st) /\
    RELOADING_MEMORY
    = "Reloading memory from thread (might take a while if this was a long conversation)..."
    /\
    MEMORY_RELOADED_PREFIX
    = ("> Memory reloaded from thread - Here's what we told the bot: ```"
       ++ TIME_PASSED_MESSAGE ++ "```> ...and it replied:")%string.
Proof.
  intros Hreg Hcount.
  unfold _create_chat, contains. simpl. rewrite Hreg. simpl.
  rewrite bool_decide_true by exact Hcount. simpl.
  io_case; [| discriminate].
  io_case; [| discriminate].
  io_case; [| discriminate].
  io_case; [| discriminate].
  io_case; [| discriminate].
  intros [= <- <-].
  repeat match goal with u : unit |- _ => destruct u end.
  eexists _, _.
  split; [| split; [| split; [| split; [| split]]]].
  - simpl. rewrite <- !app_assoc. reflexivity.
  - unfold shown. simpl. rewrite !omap_app. simpl.
    rewrite ?app_nil_r, <- ?app_assoc. reflexivity.
  - unfold turns. simpl. rewrite !omap_app. simpl.
    rewrite ?app_nil_r, <- ?app_assoc. reflexivity.
  - count_trace.
  - reflexivity.
  - reflexivity.
Qed.

(** ** Events handled one after the other *)

Lemma run_events_keeps self env evs st key chat :
  _active_threads st !! key = Some chat ->
  _active_threads (run_events self env evs st) !! key = Some chat.
Proof.
  revert st. induction evs as [| ev rest IH]; intros st H; simpl; trivial.
  apply IH. eapply registry_step_keeps; [apply handler_step | exact H].
Qed.

Lemma run_events_built self env evs st :
  built_by_cog self st -> built_by_cog self (run_events self env evs st).
Proof.
  revert st. induction evs as [| ev rest IH]; intros st H; simpl; trivial.
  apply IH. eapply registry_step_built; [apply handler_step | exact H].
Qed.

Lemma empty_registry_built self st :
  _active_threads st = ∅ -> built_by_cog self st.
Proof.
  intros Hempty. split.
  - intros key chat. rewrite Hempty, lookup_empty. discriminate.
  - intros key1 key2 chat1 chat2. rewrite Hempty, lookup_empty. discriminate.
Qed.

(** X7.  While events are handled one after the other, a session that is
    in the registry stays there as it is: no handler replaces the session
    of a thread by another one. *)
Theorem sequential_events_keep_each_session self env evs st key chat :
  _active_threads st !! key = Some chat ->
  _active_threads (run_events self env evs st) !! key = Some chat.
Proof. apply run_events_keeps. Qed.

(** X8.  Starting from the empty registry and handling events one after
    the other, every session is filed under the id of its own thread, its
    assistant is one that was built, and two different threads never share
    an assistant. *)
Theorem sequential_sessions_own_their_assistant self env evs st :
  _active_threads st = ∅ ->
  let st' := run_events self env evs st in
  (forall key chat,
     _active_threads st' !! key = Some chat ->
     thread_id (thread chat) = key /\ (assistant chat < assistants st')%nat) /\
  (forall key1 key2 chat1 chat2,
     _active_threads st' !! key1 = Some chat1 ->
     _active_threads st' !! key2 = Some chat2 ->
     key1 <> key2 ->
     assistant chat1 <> assistant chat2).
Proof.
  intros Hempty st'.
  destruct (run_events_built self env evs st (empty_registry_built self st Hempty))
    as [Hshape Hdistinct].
  fold st' in Hshape, Hdistinct. split.
  - intros key chat Hreg. destruct (Hshape key chat Hreg) as (A & _ & C). auto.
  - intros key1 key2 chat1 chat2 H1 H2 Hne Heq.
    apply Hne. eapply Hdistinct; eassumption.
Qed.

(** X9.  Starting from the empty registry and handling events one after
    the other, every session of the registry has an empty list of messages
    and carries the start instant and the identifier stored in the class:
    no handler writes any of the three fields. *)
Theorem sequential_sessions_keep_their_defaults self env evs st key chat :
  _active_threads st = ∅ ->
  _active_threads (run_events self env evs st) !! key = Some chat ->
  messages chat = [] /\
  started_at chat = default_started_at (Chat_cls self) /\
  chat_id chat = default_chat_id (Chat_cls self).
Proof.
  intros Hempty Hreg.
  destruct (run_events_built self env evs st (empty_registry_built self st Hempty))
    as [Hshape _].
  destruct (Hshape key chat Hreg) as (_ & Hchat & _).
  rewrite Hchat. simpl. auto.
Qed.

(** ** Life of a registry entry, for interleaved handlers *)














(** ** One turn *)

(** X10.  [_async_send_message_to_bot] asks the model at most once, for the
    text it was given and through the assistant of the session it was
    given.  When the placeholder cannot be posted, the exception of the
    platform leaves the handler and the model is not asked at all. *)
Theorem dispatch_asks_the_model_at_most_once env chat input_text st :
  let out := run env (_async_send_message_to_bot chat input_text) st in
  (turns (snd out) = turns st \/
   turns (snd out) = (turns st ++ [(assistant chat, input_text)])%list) /\
  (forall e,
     env_io env (trace st) _ (ThreadSend (thread chat) AWAITING_BOT_RESPONSE)
       = Err e ->
     out = (Err e,
            record (EvIO (ThreadSend (thread chat) AWAITING_BOT_RESPONSE)
                      (Err e)) st)).
Proof.
  split.
  - unfold _async_send_message_to_bot. simpl.
    io_case; [| left; observe; reflexivity].
    io_case; [| io_case; left; observe; reflexivity].
    io_case; [| io_case; right; observe; reflexivity].
    io_case; [right; observe; reflexivity |].
    io_case; right; observe; reflexivity.
  - intros e Hsend. unfold _async_send_message_to_bot. simpl.
    rewrite Hsend. reflexivity.
Qed.

(** X11.  When the platform and the model both answer, the reply of the
    model takes the place of the placeholder: the handler returns
    normally, the thread has been shown the placeholder and then the
    reply, and the turn has gone to the assistant of the session. *)
Theorem dispatch_reply_replaces_placeholder env st chat input_text m reply :
  env_io env (trace st) _ (ThreadSend (thread chat) AWAITING_BOT_RESPONSE)
    = Ok m ->
  let st1 :=
    record (EvIO (ThreadSend (thread chat) AWAITING_BOT_RESPONSE) (Ok m)) st in
  env_io env (trace st1) _ (Typing (channel m)) = Ok tt ->
  let st2 := record (EvIO (Typing (channel m)) (Ok tt)) st1 in
  env_io env (trace st2) _ (AsyncProcessInput (assistant chat) input_text)
    = Ok reply ->
  let st3 :=
    record (EvIO (AsyncProcessInput (assistant chat) input_text) (Ok reply))
      st2 in
  env_io env (trace st3) _ (MessageEdit m reply) = Ok tt ->
  let st4 := record (EvIO (MessageEdit m reply) (Ok tt)) st3 in
  run env (_async_send_message_to_bot chat input_text) st = (Ok tt, st4) /\
  shown st4 = (shown st ++ [AWAITING_BOT_RESPONSE; reply])%list /\
  turns st4 = (turns st ++ [(assistant chat, input_text)])%list.
Proof.
  intros Hsend st1 Htyping st2 Hmodel st3 Hedit st4.
  subst st4 st3 st2 st1. simpl in *.
  split; [| split].
  - unfold _async_send_message_to_bot. simpl.
    rewrite Hsend. simpl. rewrite Htyping. simpl. rewrite Hmodel. simpl.
    rewrite Hedit. reflexivity.
  - observe. reflexivity.
  - observe. reflexivity.
Qed.

(** X12.  When the model has answered but the platform refuses the edit
    that would post the reply, the handler treats this like a failure of
    the model: it logs the exception and asks for the placeholder to be
    replaced by the error report; the outcome of that second edit is the
    outcome of the handler.  The turn has been handed to the model all the
    same. *)
Theorem dispatch_refused_reply_is_reported env st chat input_text m reply e :
  env_io env (trace st) _ (ThreadSend (thread chat) AWAITING_BOT_RESPONSE)
    = Ok m ->
  let st1 :=
    record (EvIO (ThreadSend (thread chat) AWAITING_BOT_RESPONSE) (Ok m)) st in
  env_io env (trace st1) _ (Typing (channel m)) = Ok tt ->
  let st2 := record (EvIO (Typing (channel m)) (Ok tt)) st1 in
  env_io env (trace st2) _ (AsyncProcessInput (assistant chat) input_text)
    = Ok reply ->
  let st3 :=
    record (EvIO (AsyncProcessInput (assistant chat) input_text) (Ok reply))
      st2 in
  env_io env (trace st3) _ (MessageEdit m reply) = Err e ->
  let st4 :=
    record (EvLog ERROR (exn_str e))
      (record (EvIO (MessageEdit m reply) (Err e)) st3) in
  let report := env_io env (trace st4) _ (MessageEdit m (error_report e)) in
  let st5 := record (EvIO (MessageEdit m (error_report e)) report) st4 in
  run env (_async_send_message_to_bot chat input_text) st = (report, st5) /\
  turns st5 = (turns st ++ [(assistant chat, input_text)])%list /\
  (report = Ok tt ->
   shown st5 = (shown st ++ [AWAITING_BOT_RESPONSE; error_report e])%list).
Proof.
  intros Hsend st1 Htyping st2 Hmodel st3 Hedit st4 report st5.
  subst st5 report st4 st3 st2 st1. simpl in *.
  split; [| split].
  - unfold _async_send_message_to_bot. simpl.
    rewrite Hsend. simpl. rewrite Htyping. simpl. rewrite Hmodel. simpl.
    rewrite Hedit. simpl. io_case; reflexivity.
  - observe. reflexivity.
  - intros Hreport. rewrite Hreport. observe. reflexivity.
Qed.

(** ** The first message of a thread *)

(** X13.  A message for the bot in a thread that has no session first
    creates the session, titled after the author and the bot, and then
    hands the text to it; when the creation fails, its exception leaves
    [on_message] and nothing is dispatched.  In a thread without earlier
    messages the creation asks nothing of the platform: the turn goes
    straight to a new session. *)
Theorem on_message_creates_then_dispatches self env st message thread :
  for_the_bot self message thread ->
  _active_threads st !! thread_id thread = None ->
  let received :=
    record (EvLog INFO ("Received message: " ++ content message)) st in
  let title :=
    (user_str (author message) ++ "'s chat with "
     ++ user_name (discord_bot_user self))%string in
  run env (on_message self message) st =
    match run env (_create_chat self thread title) received with
    | (Ok chat, st1) =>
        run env (_async_send_message_to_bot chat (content message))
          (record (EvLog INFO ("Sending message to the agent: "
                               ++ content message)) st1)
    | (Err e, st1) => (Err e, st1)
    end /\
  (message_count thread <= 0 ->
   let chat := Chat_new (Chat_cls self) title thread (assistants st) in
   run env (on_message self message) st =
     run env (_async_send_message_to_bot chat (content message))
       (record (EvLog INFO ("Sending message to the agent: "
                            ++ content message))
          {| _active_threads :=
               <[thread_id thread := chat]> (_active_threads st);
             assistants := S (assistants st);
             trace := trace received |})).
Proof.
  intros Hfor Hreg received title.
  pose proof (on_message_unregistered self env st message thread Hfor Hreg)
    as Hrun.
  split; [exact Hrun |].
  intros Hcount chat. rewrite Hrun.
  unfold _create_chat at 1, contains. simpl. rewrite Hreg. simpl.
  rewrite bool_decide_false by lia. simpl. reflexivity.
Qed.

(** ** Spawning a thread *)

(** X14.  [_spawn_thread] creates the thread under the title of the chat.
    When the platform refuses the thread, the exception leaves the handler
    before any assistant is built.  Otherwise the registry is either
    unchanged or has gained one session, filed under the id of the thread
    the platform has returned and carrying the name of that thread as its
    title. *)
Theorem spawn_thread_names_thread_and_session
    self env st message initial_text_input :
  let chat_title :=
    (user_str (author message) ++ "'s chat with "
     ++ user_name (discord_bot_user self))%string in
  let created := env_io env (trace st) _ (CreateThread message chat_title) in
  let st1 := record (EvIO (CreateThread message chat_title) created) st in
  let out := run env (_spawn_thread self message initial_text_input) st in
  (forall e, created = Err e -> out = (Err e, st1)) /\
  (forall thread', created = Ok thread' ->
     _active_threads (snd out) = _active_threads st \/
     (_active_threads st !! thread_id thread' = None /\
      _active_threads (snd out)
        = <[thread_id thread' :=
              Chat_new (Chat_cls self) chat_title thread' (assistants st)]>
            (_active_threads st))).
Proof.
  intros chat_title created st1 out. subst out st1 created.
  unfold _spawn_thread.
  remember _async_send_message_to_bot as dispatch eqn:Hdispatch.
  remember (_create_chat self) as create eqn:Hcreate. simpl.
  change (_create_chat_title_string self (user_str (author message)))
    with chat_title. split.
  - intros e Hcreated. rewrite Hcreated. reflexivity.
  - intros thread' Hcreated. rewrite Hcreated. simpl.
    rewrite run_bind. subst create.
    set (st1 := record (EvIO (CreateThread message chat_title) (Ok thread')) st).
    assert (Hsame :
      forall chat s,
        same_cog s (snd (run env
          (match initial_text_input with
           | Some text => dispatch chat text
           | None =>
               bind (await (ThreadSendEmbed (thread chat)
                              (_initial_message_embed message
                                 "A human has requested a chat!")))
                 (fun _ => dispatch chat "A human has requested a chat!")
           end) s))).
    { intros chat s. destruct initial_text_input as [text |]; simpl.
      - subst dispatch. apply dispatch_same_cog.
      - io_case; subst dispatch.
        + eapply same_cog_trans; [apply same_cog_record | apply dispatch_same_cog].
        + apply same_cog_record. }
    destruct (_active_threads st !! thread_id thread') as [old |] eqn:Hreg.
    + rewrite (create_chat_registered_run self env st1 thread' chat_title old)
        by exact Hreg.
      left.
      lazymatch goal with
      | |- _active_threads (snd (run env _ ?s)) = _ =>
          destruct (Hsame old s) as [Hr _]
      end.
      exact Hr.
    + pose proof (create_chat_absent_cases self env st1 thread' chat_title Hreg)
        as H.
      cbv zeta in H.
      destruct (run env (_create_chat self thread' chat_title) st1)
        as [[chat | e] st2]; simpl in H.
      * destruct H as [_ [[Hok Hins] | (e & Herr & _)]]; [| discriminate].
        right. split; [reflexivity |].
        destruct (Hsame chat st2) as [Hr _].
        exact (eq_trans Hr Hins).
      * destruct H as [_ [[Hok _] | (e' & _ & Hsame')]]; [discriminate |].
        left. exact Hsame'.
Qed.

(** ** Green-check summaries *)

Module GreenCheckFacts.
Import GreenCheck.

Lemma replace_char_length old new text :
  String.length (replace_char old new text) = String.length text.
Proof. induction text as [| c rest IH]; simpl; congruence. Qed.

Lemma replace_char_get old new text i :
  String.get i (replace_char old new text)
  = (fun c => if Ascii.eqb c old then new else c) <$> String.get i text.
Proof.
  revert i. induction text as [| c rest IH]; intros i; simpl; trivial.
  destruct i; simpl; [reflexivity | apply IH].
Qed.

Lemma length_append s1 s2 :
  String.length (s1 ++ s2) = (String.length s1 + String.length s2)%nat.
Proof. induction s1 as [| a rest IH]; simpl; [reflexivity | rewrite IH; reflexivity]. Qed.

Lemma get_append_left s1 s2 i c :
  String.get i s1 = Some c -> String.get i (s1 ++ s2) = Some c.
Proof.
  revert i. induction s1 as [| a rest IH]; intros i; simpl; [discriminate |].
  destruct i; simpl; [trivial | apply IH].
Qed.

Lemma get_append_right s1 s2 i :
  String.get (String.length s1 + i) (s1 ++ s2) = String.get i s2.
Proof. induction s1 as [| a rest IH]; simpl; trivial. Qed.

Lemma get_in_range s i c : String.get i s = Some c -> (i < String.length s)%nat.
Proof.
  revert i. induction s as [| a rest IH]; intros i; simpl; [discriminate |].
  destruct i; simpl; [lia |]. intros H. apply IH in H. lia.
Qed.

Lemma stem_get file_name i c :
  String.get i file_name = Some c ->
  String.get i
    (replace_char " " "_" (replace_char "." "_" (replace_char ":" "_" file_name)))
  = Some (if replaced c then "_"%char else c).
Proof.
  intros H. rewrite !replace_char_get, H. simpl. unfold replaced.
  destruct (Ascii.eqb_spec c ":") as [-> | H1]; [reflexivity |].
  destruct (Ascii.eqb_spec c ".") as [-> | H2]; [reflexivity |].
  destruct (Ascii.eqb_spec c " ") as [-> | H3]; reflexivity.
Qed.

Lemma stem_length file_name :
  String.length
    (replace_char " " "_" (replace_char "." "_" (replace_char ":" "_" file_name)))
  = String.length file_name.
Proof. rewrite !replace_char_length. reflexivity. Qed.

Lemma clean_file_name_parts file_name i c :
  String.get i (clean_file_name file_name) = Some c ->
  (exists c0, String.get i file_name = Some c0 /\
              c = (if replaced c0 then "_"%char else c0))
  \/ (exists k, i = (String.length file_name + k)%nat /\
                String.get k ".md" = Some c).
Proof.
  intros H. unfold clean_file_name in H.
  destruct (String.get i file_name) as [c0 |] eqn:Hget.
  - left. exists c0. split; [reflexivity |].
    rewrite (get_append_left _ _ _ _ (stem_get file_name i c0 Hget)) in H.
    congruence.
  - right. exists (i - String.length file_name)%nat.
    assert (Hge : (String.length file_name <= i)%nat).
    { destruct (le_lt_dec (String.length file_name) i) as [Hle | Hlt]; trivial.
      exfalso. clear H. revert i Hget Hlt.
      induction file_name as [| a rest IH]; intros i Hget Hlt; simpl in *;
        [lia |].
      destruct i; [discriminate |]. apply (IH i Hget). lia. }
    split; [lia |].
    replace i with (String.length
                      (replace_char " " "_"
                         (replace_char "." "_" (replace_char ":" "_" file_name)))
                    + (i - String.length file_name))%nat in H
      by (rewrite stem_length; lia).
    rewrite get_append_right in H. exact H.
Qed.

(** X15.  The file name of a summary keeps every character of the name it
    is made from, at its place, except that each colon, full stop and
    space has become an underscore; [.md] is appended. *)
Theorem clean_file_name_keeps_or_replaces file_name :
  String.length (clean_file_name file_name)
    = (String.length file_name + 3)%nat /\
  (forall i c,
     String.get i file_name = Some c ->
     String.get i (clean_file_name file_name)
     = Some (if replaced c then "_"%char else c)) /\
  (forall i,
     String.get (String.length file_name + i) (clean_file_name file_name)
     = String.get i ".md").
Proof.
  unfold clean_file_name. split; [| split].
  - rewrite length_append, stem_length. reflexivity.
  - intros i c H. apply get_append_left, stem_get, H.
  - intros i. rewrite <- (stem_length file_name) at 1. apply get_append_right.
Qed.

(** X16.  In the file name of a summary the only full stop is the one of
    the extension, and there is neither a colon nor a space. *)
Theorem clean_file_name_has_one_dot file_name i c :
  String.get i (clean_file_name file_name) = Some c ->
  (c = "."%char -> i = String.length file_name) /\
  c <> ":"%char /\ c <> " "%char.
Proof.
  intros H.
  destruct (clean_file_name_parts file_name i c H)
    as [(c0 & _ & ->) | [k [-> Hk]]].
  - unfold replaced.
    destruct (Ascii.eqb_spec c0 ":") as [-> | H1]; simpl;
      [repeat split; discriminate |].
    destruct (Ascii.eqb_spec c0 ".") as [-> | H2]; simpl;
      [repeat split; discriminate |].
    destruct (Ascii.eqb_spec c0 " ") as [-> | H3]; simpl;
      [repeat split; discriminate |].
    repeat split; trivial. intros ->. contradiction.
  - destruct k as [| [| [| k]]]; simpl in Hk; try discriminate;
      injection Hk as <-; repeat split; try discriminate.
    intros _. lia.
Qed.

(** X17.  Two names that differ only in which of the characters colon,
    full stop, space and underscore they have at some places get the same
    file name: replacing, in a name, every occurrence of one of the three
    replaced characters by another of the four does not change the file
    name, so the later summary overwrites the earlier one. *)
Theorem clean_file_name_collides file_name a b :
  replaced a = true ->
  replaced b = true \/ b = "_"%char ->
  clean_file_name (replace_char a b file_name) = clean_file_name file_name.
Proof.
  intros Ha Hb. unfold clean_file_name. f_equal.
  induction file_name as [| c rest IH]; simpl; [reflexivity |].
  rewrite IH. f_equal.
  assert (Hb' : (if Ascii.eqb (if Ascii.eqb (if Ascii.eqb b ":" then "_" else b)
                                    "." then "_"
                                else if Ascii.eqb b ":" then "_" else b) " "
                 then "_"
                 else if Ascii.eqb (if Ascii.eqb b ":" then "_" else b) "."
                      then "_" else if Ascii.eqb b ":" then "_" else b)%char
                = "_"%char).
  { destruct Hb as [Hb | ->]; [| reflexivity]. unfold replaced in Hb.
    destruct (Ascii.eqb_spec b ":") as [-> | H1]; [reflexivity |].
    destruct (Ascii.eqb_spec b ".") as [-> | H2]; [reflexivity |].
    destruct (Ascii.eqb_spec b " ") as [-> | H3]; [reflexivity |].
    discriminate. }
  destruct (Ascii.eqb_spec c a) as [-> | Hne]; [| reflexivity].
  rewrite Hb'. unfold replaced in Ha.
  destruct (Ascii.eqb_spec a ":") as [-> | H1]; [reflexivity |].
  destruct (Ascii.eqb_spec a ".") as [-> | H2]; [reflexivity |].
  destruct (Ascii.eqb_spec a " ") as [-> | H3]; [reflexivity |].
  discriminate.
Qed.

Lemma split_char_not_empty sep text : split_char sep text <> [].
Proof.
  destruct text as [| c rest]; simpl; [discriminate |].
  destruct (Ascii.eqb c sep); [discriminate |].
  destruct (split_char sep rest); discriminate.
Qed.

Lemma join_split sep new text :
  String.concat (String new EmptyString) (split_char sep text)
  = replace_char sep new text.
Proof.
  induction text as [| c rest IH]; simpl; [reflexivity |].
  pose proof (split_char_not_empty sep rest) as Hne.
  destruct (Ascii.eqb c sep).
  - destruct (split_char sep rest) as [| first others]; [contradiction |].
    simpl in *. rewrite IH. reflexivity.
  - destruct (split_char sep rest) as [| first others]; [contradiction |].
    rewrite <- IH. destruct others; reflexivity.
Qed.

Lemma append_step (a rest h tail : string) :
  rest = h ++ tail -> a ++ rest = (a ++ h) ++ tail.
Proof.
  intros ->. induction a as [| c a IH]; [reflexivity |].
  change (String c (a ++ (h ++ tail)) = String c ((a ++ h) ++ tail)).
  f_equal. exact IH.
Qed.

Lemma append_stop (rest tail : string) : rest = tail -> rest = EmptyString ++ tail.
Proof. intros ->. reflexivity. Qed.

(** X18.  The text of a summary ends with the heading of the tags and the
    tags themselves, in which every space has become a line break and
    nothing else has changed: tags separated by one space come one per
    line, and every further space gives an empty line. *)
Theorem str_puts_each_tag_on_a_line self :
  exists head,
    __str__ self
    = head ++ "## Tags" ++ nl ++ nl ++ replace_char " " "010" (tags self) ++ nl.
Proof.
  unfold __str__, lines.
  change (String.concat nl (split_char " " (tags self)))
    with (String.concat (String "010" EmptyString) (split_char " " (tags self))).
  rewrite (join_split " " "010" (tags self)).
  cbn [String.concat]. eexists.
  repeat first [apply append_stop; reflexivity | apply append_step].
Qed.

(** *** The run over the collection *)

Lemma exec_then {A B} world (p : Prog A) (f : A -> Prog B) tr :
  exec world (then_ p f) tr =
  match exec world p tr with
  | (inl a, tr1) => exec world (f a) tr1
  | (inr e, tr1) => (inr e, tr1)
  end.
Proof.
  revert tr. induction p as [a | e | X op k IH]; intros tr; simpl; trivial.
  destruct (world tr X op) as [x | e]; [apply IH | reflexivity].
Qed.

Lemma saves_app tr1 tr2 : saves (tr1 ++ tr2) = (saves tr1 + saves tr2)%nat.
Proof. unfold saves. rewrite List.filter_app, length_app. reflexivity. Qed.

(** What the loop has done when it stops, normally or not. *)
Definition loop_outcome (entries : list Entry) (tr : list Ev)
    (out : (unit + error) * list Ev) : Prop :=
  shuffles (snd out) = shuffles tr /\
  saves (snd out) = saves tr /\
  exists done,
    done `prefix_of` entries /\
    Forall has_messages done /\
    upserts (snd out) = (upserts tr ++ map _student_name done)%list /\
    (fst out = inl tt ->
     done = entries /\
     length (files (snd out)) = (length (files tr) + length entries)%nat).

Ltac observe_ops :=
  unfold shuffles, upserts, files; rewrite ?saves_app, ?omap_app; simpl;
  rewrite ?app_nil_r, ?Nat.add_0_r.

Ltac op_case world :=
  match goal with
  | |- context [world ?tr ?X ?op] =>
      destruct (world tr X op) as [? | ?] eqn:?; cbn
  end.

Lemma loop_stops_early entries tr tr1 (e : error) :
  shuffles tr1 = shuffles tr ->
  saves tr1 = saves tr ->
  upserts tr1 = upserts tr ->
  loop_outcome entries tr (inr e, tr1).
Proof.
  intros H1 H2 H3. split; [exact H1 |]. split; [exact H2 |].
  exists []. split; [apply prefix_nil |]. split; [constructor |].
  split; [rewrite app_nil_r; exact H3 | discriminate].
Qed.

#[local] Opaque __str__ clean_file_name.

Lemma for_each_entry_outcome world collection_name entries tr :
  loop_outcome entries tr
    (exec world (for_each_entry collection_name entries) tr).
Proof.
  revert tr. induction entries as [| entry rest IH]; intros tr.
  - simpl. split; [reflexivity |]. split; [reflexivity |].
    exists []. split; [reflexivity |]. split; [constructor |].
    split; [rewrite app_nil_r; reflexivity |]. intros _. split; [reflexivity |].
    simpl. lia.
  - cbn.
    op_case world; [| apply loop_stops_early; observe_ops; reflexivity].
    op_case world; [| apply loop_stops_early; observe_ops; reflexivity].
    op_case world; [| apply loop_stops_early; observe_ops; reflexivity].
    destruct (green_check_messages entry) as [| m ms] eqn:Hmessages; cbn.
    { apply loop_stops_early; observe_ops; reflexivity. }
    op_case world; [| apply loop_stops_early; observe_ops; reflexivity].
    assert (Hentry : has_messages entry)
      by (unfold has_messages; rewrite Hmessages; discriminate).
    assert (Hone :
      forall (e : error) tr1,
        shuffles tr1 = shuffles tr ->
        saves tr1 = saves tr ->
        upserts tr1 = (upserts tr ++ [_student_name entry])%list ->
        loop_outcome (entry :: rest) tr (inr e, tr1)).
    { intros e tr1 H1 H2 H3. split; [exact H1 |]. split; [exact H2 |].
      exists [entry]. split; [apply prefix_cons, prefix_nil |].
      split; [constructor; [exact Hentry | constructor] |].
      split; [exact H3 | discriminate]. }
    op_case world; [| apply loop_stops_early; observe_ops; reflexivity].
    op_case world; [| apply Hone; observe_ops; reflexivity].
    op_case world; [| apply Hone; observe_ops; reflexivity].
    op_case world; [| apply Hone; observe_ops; reflexivity].
    op_case world; [| apply Hone; observe_ops; reflexivity].
    match goal with
    | |- loop_outcome _ _ (exec world _ ?tr1) =>
        destruct (IH tr1) as (H1 & H2 & done & Hprefix & Hall & Hups & Hok);
        revert H1 H2 Hups Hok
    end.
    unfold loop_outcome. observe_ops. intros H1 H2 Hups Hok.
    split; [exact H1 |]. split; [rewrite H2; lia |].
    exists (entry :: done). split; [apply prefix_cons, Hprefix |].
    split; [constructor; trivial |].
    split; [rewrite Hups, <- app_assoc; reflexivity |].
    intros Hfst. destruct (Hok Hfst) as [-> Hfiles].
    split; [reflexivity |]. rewrite Hfiles, length_app. simpl. lia.
Qed.

#[local] Transparent __str__ clean_file_name.

Lemma run_outcome world overwrite save_to_json collection_name :
  let out :=
    exec world
      (parse_green_check_messages overwrite save_to_json collection_name) [] in
  (exists e, fst out = inr e /\ shuffles (snd out) = []) \/
  (exists entries done,
     shuffles (snd out) = [entries] /\
     done `prefix_of` entries /\
     Forall has_messages done /\
     upserts (snd out) = map _student_name done /\
     (done <> entries -> saves (snd out) = 0%nat /\ exists e, fst out = inr e) /\
     (fst out = inl tt ->
      done = entries /\
      length (files (snd out)) = length entries /\
      saves (snd out) = if save_to_json then 1%nat else 0%nat)).
Proof.
  unfold parse_green_check_messages. cbn.
  op_case world; [| left; eauto].
  op_case world; [| left; eauto].
  op_case world; [| left; eauto].
  op_case world; [| left; eauto].
  right.
  match goal with
  | H : world _ _ (Shuffle _) = inl ?entries |- _ => exists entries
  end.
  op_case world.
  2: { exists []. repeat split; try apply prefix_nil; try constructor;
         try discriminate; eauto. }
  rewrite exec_then.
  match goal with
  | |- context [exec world (for_each_entry ?c ?entries) ?tr1] =>
      destruct (for_each_entry_outcome world c entries tr1)
        as (H1 & H2 & done & Hprefix & Hall & Hups & Hok);
      destruct (exec world (for_each_entry c entries) tr1) as [[[] | e] tr2]
  end; simpl in H1, H2, Hups, Hok; exists done.
  - destruct (Hok eq_refl) as [-> Hfiles]. change (saves tr2 = 0%nat) in H2.
    destruct save_to_json; cbn.
    + op_case world; unfold shuffles, upserts, files, saves in *;
        rewrite ?List.filter_app, ?length_app, ?H2, ?omap_app; simpl;
        rewrite ?app_nil_r.
      * split; [exact H1 |]. split; [exact Hprefix |]. split; [exact Hall |].
        split; [exact Hups |]. split; [contradiction |].
        intros _. split; [reflexivity |]. split; [exact Hfiles |].
        reflexivity.
      * split; [exact H1 |]. split; [exact Hprefix |]. split; [exact Hall |].
        split; [exact Hups |]. split; [contradiction | discriminate].
    + split; [exact H1 |]. split; [exact Hprefix |]. split; [exact Hall |].
      split; [exact Hups |]. split; [contradiction |].
      intros _. auto.
  - change (saves tr2 = 0%nat) in H2. cbn.
    split; [exact H1 |]. split; [exact Hprefix |]. split; [exact Hall |].
    split; [exact Hups |]. split; [| discriminate].
    intros _. split; [exact H2 | eauto].
Qed.

(** X19.  When the run comes to an entry without messages it stops there
    with an exception: [save_json] is not called, and the entries that
    were saved to the database are, in the order of the shuffled list, some
    of those that come first in it, each with messages. *)
Theorem entry_without_messages_stops_the_run
    world overwrite save_to_json collection_name entries :
  let out :=
    exec world
      (parse_green_check_messages overwrite save_to_json collection_name) [] in
  shuffles (snd out) = [entries] ->
  Exists (fun entry => green_check_messages entry = []) entries ->
  (exists e, fst out = inr e) /\
  saves (snd out) = 0%nat /\
  exists done,
    done `prefix_of` entries /\
    Forall has_messages done /\
    upserts (snd out) = map _student_name done.
Proof.
  intros out Hshuffle Hempty.
  pose proof (run_outcome world overwrite save_to_json collection_name) as H.
  cbv zeta in H. fold out in H.
  destruct H
    as [(e & _ & Hnone)
       | (entries' & done & Hs & Hprefix & Hall & Hups & Hfail & _)].
  - rewrite Hnone in Hshuffle. discriminate.
  - rewrite Hs in Hshuffle. injection Hshuffle as ->.
    assert (Hne : done <> entries).
    { intros ->. apply Exists_exists in Hempty.
      destruct Hempty as (entry & Hin & Hnil).
      rewrite Forall_forall in Hall. exact (Hall entry Hin Hnil). }
    destruct (Hfail Hne) as [Hsaves Herr].
    split; [exact Herr |]. split; [exact Hsaves |]. eauto.
Qed.

(** X20.  When the run ends normally, every entry of the shuffled list had
    messages and has been saved to the database once, in the order of the
    list; one file has been written per entry; and [save_json] has been
    called once if [save_to_json] is set and not at all otherwise. *)
Theorem finished_run_saves_each_entry_once
    world overwrite save_to_json collection_name :
  let out :=
    exec world
      (parse_green_check_messages overwrite save_to_json collection_name) [] in
  fst out = inl tt ->
  exists entries,
    shuffles (snd out) = [entries] /\
    Forall has_messages entries /\
    upserts (snd out) = map _student_name entries /\
    length (files (snd out)) = length entries /\
    saves (snd out) = if save_to_json then 1%nat else 0%nat.
Proof.
  intros out Hok.
  pose proof (run_outcome world overwrite save_to_json collection_name) as H.
  cbv zeta in H. fold out in H.
  destruct H
    as [(e & Herr & _) | (entries & done & Hs & _ & Hall & Hups & _ & Hdone)].
  - rewrite Herr in Hok. discriminate.
  - destruct (Hdone Hok) as (-> & Hfiles & Hsaves). exists entries. auto.
Qed.

End GreenCheckFacts.

(** ** The further properties at work *)

Lemma chat_needs_an_allowed_channel_witness :
  (ctx_channel_id Cases.outside ∉ _allowed_channels Scenario.cog) /\
  run Scenario.env_ok (chat Scenario.cog Cases.outside None) Scenario.st0 =
  (Ok tt,
   record (EvLog INFO ("Channel " ++ pretty (ctx_channel_id Cases.outside)
                       ++ " is not allowed to start a chat")) Scenario.st0).
Proof.
  assert (H : ctx_channel_id Cases.outside ∉ _allowed_channels Scenario.cog)
    by compute_done.
  split; [exact H |].
  exact (proj1 (chat_needs_an_allowed_channel Scenario.cog Scenario.env_ok
                  Scenario.st0 Cases.outside None) H).
Defined.

Lemma on_message_leaves_alone_witness :
  run Scenario.env_ok (on_message Scenario.cog Cases.aside) Scenario.st_with_7 =
  (Ok tt,
   record (EvLog INFO ("Received message: " ++ content Cases.aside))
     Scenario.st_with_7).
Proof.
  apply (on_message_leaves_alone Scenario.cog Scenario.env_ok
           Scenario.st_with_7 Cases.aside).
  right; right; right. eexists. reflexivity.
Defined.

Lemma on_raw_reaction_add_never_raises_witness :
  run Cases.env_no_fetch
    (on_raw_reaction_add Scenario.cog (Scenario.reaction 42 BRAIN))
    Scenario.st0 =
  (Ok tt,
   record (EvPrint ("Error: " ++ exn_str (External "Unknown Message")))
     (record (EvIO (FetchMessage 100 600) (Err (External "Unknown Message")))
        Scenario.st0)).
Proof.
  apply (proj2 (on_raw_reaction_add_never_raises Scenario.cog Cases.env_no_fetch
                  Scenario.st0 (Scenario.reaction 42 BRAIN))
           (External "Unknown Message")).
  - compute_done.
  - reflexivity.
  - compute_done.
  - reflexivity.
Defined.

Lemma create_chat_registers_new_session_witness :
  let out :=
    run Scenario.env_ok (_create_chat Scenario.cog Scenario.T8 "t")
      Scenario.st_with_7 in
  _active_threads Scenario.st_with_7 !! thread_id Scenario.T8 = None /\
  fst out = Ok (Chat_new (Chat_cls Scenario.cog) "t" Scenario.T8 1) /\
  assistants (snd out) = 2%nat /\
  _active_threads (snd out) !! 7 = Some Scenario.session7.
Proof.
  assert (Hrun :
    run Scenario.env_ok (_create_chat Scenario.cog Scenario.T8 "t")
      Scenario.st_with_7
    = (Ok (Chat_new (Chat_cls Scenario.cog) "t" Scenario.T8 1),
       snd (run Scenario.env_ok (_create_chat Scenario.cog Scenario.T8 "t")
              Scenario.st_with_7)))
    by (vm_compute; reflexivity).
  destruct (create_chat_registers_new_session Scenario.cog Scenario.env_ok
              Scenario.st_with_7 Scenario.T8 "t" _ _ eq_refl Hrun)
    as (_ & Hn & _ & Hother).
  cbv zeta. split; [reflexivity |]. split; [rewrite Hrun; reflexivity |].
  split; [exact Hn |].
  rewrite (Hother 7) by discriminate. reflexivity.
Defined.

Lemma create_chat_twice_gives_one_session_witness :
  let out1 :=
    run Scenario.env_ok (_create_chat Scenario.cog Scenario.T7 "first")
      Scenario.st0 in
  exists chat st2,
    fst out1 = Ok chat /\
    run Scenario.env_ok (_create_chat Scenario.cog Scenario.T7 "second")
      (snd out1) = (Ok chat, st2) /\
    title chat = "first" /\
    assistants st2 = 1%nat.
Proof.
  assert (Hrun :
    run Scenario.env_ok (_create_chat Scenario.cog Scenario.T7 "first")
      Scenario.st0
    = (Ok (Chat_new (Chat_cls Scenario.cog) "first" Scenario.T7 0),
       snd (run Scenario.env_ok (_create_chat Scenario.cog Scenario.T7 "first")
              Scenario.st0)))
    by (vm_compute; reflexivity).
  destruct (create_chat_twice_gives_one_session Scenario.cog Scenario.env_ok
              Scenario.st0 Scenario.T7 "first" "second" _ _ Hrun)
    as (st2 & Hsecond & _ & Hn).
  cbv zeta. eexists _, st2. split; [rewrite Hrun; reflexivity |].
  split; [exact Hsecond |]. split; [reflexivity |].
  rewrite Hn. vm_compute. reflexivity.
Defined.

Lemma sequential_events_keep_each_session_witness :
  _active_threads Scenario.st_with_7 !! 7 = Some Scenario.session7 /\
  _active_threads
    (run_events Scenario.cog Scenario.env_ok Cases.busy_day Scenario.st_with_7)
    !! 7 = Some Scenario.session7.
Proof.
  split; [reflexivity |].
  apply (sequential_events_keep_each_session Scenario.cog Scenario.env_ok
           Cases.busy_day Scenario.st_with_7 7 Scenario.session7).
  reflexivity.
Defined.

Lemma sequential_sessions_own_their_assistant_witness :
  let st' :=
    run_events Scenario.cog Scenario.env_ok Cases.busy_day Scenario.st0 in
  size (_active_threads st') = 4%nat /\
  (forall key1 key2 chat1 chat2,
     _active_threads st' !! key1 = Some chat1 ->
     _active_threads st' !! key2 = Some chat2 ->
     key1 <> key2 ->
     assistant chat1 <> assistant chat2).
Proof.
  split; [vm_compute; reflexivity |].
  apply (sequential_sessions_own_their_assistant Scenario.cog Scenario.env_ok
           Cases.busy_day Scenario.st0 eq_refl).
Defined.

Lemma sequential_sessions_keep_their_defaults_witness :
  exists chat,
    _active_threads
      (run_events Scenario.cog Scenario.env_ok Cases.busy_day Scenario.st0)
      !! 8 = Some chat /\
    messages chat = [] /\
    started_at chat = default_started_at (Chat_cls Scenario.cog) /\
    chat_id chat = default_chat_id (Chat_cls Scenario.cog).
Proof.
  assert (H : _active_threads
                (run_events Scenario.cog Scenario.env_ok Cases.busy_day
                   Scenario.st0) !! 8
              = Some (Chat_new (Chat_cls Scenario.cog)
                        "alice#1234's chat with bot" Scenario.T8 3))
    by (vm_compute; reflexivity).
  eexists. split; [exact H |].
  exact (sequential_sessions_keep_their_defaults Scenario.cog Scenario.env_ok
           Cases.busy_day Scenario.st0 8 _ eq_refl H).
Defined.

Lemma dispatch_asks_the_model_at_most_once_witness :
  let out :=
    run Cases.env_no_send (_async_send_message_to_bot Scenario.session7 "hi")
      Scenario.st_with_7 in
  fst out = Err (External "Missing Access") /\
  turns (snd out) = [] /\
  shown (snd out) = [].
Proof.
  pose proof (proj2 (dispatch_asks_the_model_at_most_once Cases.env_no_send
                       Scenario.session7 "hi" Scenario.st_with_7)
                (External "Missing Access") eq_refl) as H.
  cbv zeta. rewrite H. repeat split.
Defined.

Lemma dispatch_reply_replaces_placeholder_witness :
  let out :=
    run Scenario.env_ok (_async_send_message_to_bot Scenario.session7 "hi")
      Scenario.st_with_7 in
  fst out = Ok tt /\
  shown (snd out) = [AWAITING_BOT_RESPONSE; "reply"] /\
  turns (snd out) = [(0%nat, "hi")].
Proof.
  pose proof (dispatch_reply_replaces_placeholder Scenario.env_ok
                Scenario.st_with_7 Scenario.session7 "hi" Cases.placeholder
                "reply" eq_refl eq_refl eq_refl eq_refl) as H.
  cbv zeta in H. destruct H as (Hrun & Hshown & Hturns).
  cbv zeta. rewrite Hrun. split; [reflexivity |].
  split; [exact Hshown | exact Hturns].
Defined.

Lemma dispatch_refused_reply_is_reported_witness :
  let out :=
    run Cases.env_long_reply (_async_send_message_to_bot Scenario.session7 "hi")
      Scenario.st_with_7 in
  fst out = Ok tt /\
  shown (snd out)
    = [AWAITING_BOT_RESPONSE;
       error_report (External "Must be 2000 or fewer in length.")] /\
  turns (snd out) = [(0%nat, "hi")].
Proof.
  pose proof (dispatch_refused_reply_is_reported Cases.env_long_reply
                Scenario.st_with_7 Scenario.session7 "hi" Cases.placeholder
                Cases.long_reply (External "Must be 2000 or fewer in length.")
                eq_refl eq_refl eq_refl eq_refl) as H.
  cbv zeta in H. destruct H as (Hrun & Hturns & Hshown).
  cbv zeta. rewrite Hrun. split; [reflexivity |].
  split; [exact (Hshown eq_refl) | exact Hturns].
Defined.

Lemma on_message_creates_then_dispatches_witness :
  for_the_bot Scenario.cog Scenario.later Scenario.T8 /\
  let chat :=
    Chat_new (Chat_cls Scenario.cog) "alice#1234's chat with bot" Scenario.T8 1
  in
  run Scenario.env_ok (on_message Scenario.cog Scenario.later)
    Scenario.st_with_7 =
  run Scenario.env_ok (_async_send_message_to_bot chat "hello")
    (record (EvLog INFO "Sending message to the agent: hello")
       {| _active_threads := <[8 := chat]> (_active_threads Scenario.st_with_7);
          assistants := 2;
          trace := [EvLog INFO "Received message: hello"] |}).
Proof.
  assert (Hfor : for_the_bot Scenario.cog Scenario.later Scenario.T8).
  { split; [compute_done |]. split; [reflexivity |]. split; [reflexivity |].
    eexists _, _. split; [reflexivity | compute_done]. }
  split; [exact Hfor |].
  apply (proj2 (on_message_creates_then_dispatches Scenario.cog Scenario.env_ok
                  Scenario.st_with_7 Scenario.later Scenario.T8 Hfor eq_refl)).
  compute_done.
Defined.

Lemma spawn_thread_names_thread_and_session_witness :
  run Cases.env_no_thread (_spawn_thread Scenario.cog Scenario.hi None)
    Scenario.st0 =
  (Err (External "Missing Permissions"),
   record (EvIO (CreateThread Scenario.hi "alice#1234's chat with bot")
             (Err (External "Missing Permissions"))) Scenario.st0).
Proof.
  apply (proj1 (spawn_thread_names_thread_and_session Scenario.cog
                  Cases.env_no_thread Scenario.st0 Scenario.hi None)).
  reflexivity.
Defined.

Lemma create_chat_reload_is_shown_witness :
  let out :=
    run Scenario.env_ok (_create_chat Scenario.cog Scenario.T7 "t") Scenario.st0
  in
  exists notice,
    trace (snd out) !! 3%nat
      = Some (EvIO (AsyncProcessInput 0 TIME_PASSED_MESSAGE) (Ok "reply")) /\
    trace (snd out) !! 4%nat
      = Some (EvIO (MessageEdit notice
                      (MEMORY_RELOADED_PREFIX ++ nl ++ nl ++ "reply")%string)
                (Ok tt)) /\
    shown (snd out)
    = [RELOADING_MEMORY;
       (MEMORY_RELOADED_PREFIX ++ nl ++ nl ++ "...")%string;
       (MEMORY_RELOADED_PREFIX ++ nl ++ nl ++ "reply")%string] /\
    turns (snd out) = [(0%nat, TIME_PASSED_MESSAGE)] /\
    loads (snd out) = 1%nat.
Proof.
  assert (Hrun :
    run Scenario.env_ok (_create_chat Scenario.cog Scenario.T7 "t") Scenario.st0
    = (Ok (Chat_new (Chat_cls Scenario.cog) "t" Scenario.T7 0),
       snd (run Scenario.env_ok (_create_chat Scenario.cog Scenario.T7 "t")
              Scenario.st0)))
    by (vm_compute; reflexivity).
  destruct (create_chat_reload_is_shown Scenario.cog Scenario.env_ok Scenario.st0
              Scenario.T7 "t" _ _ eq_refl eq_refl Hrun)
    as (notice & bot_response & Htrace & Hshown & Hturns & Hloads & _).
  assert (Hreply : bot_response = "reply").
  { pose (answer_of :=
      fun ev : Event =>
        match ev with
        | EvIO r res =>
            match r in Request X return Result X -> option string with
            | AsyncProcessInput _ _ =>
                fun res => match res with Ok s => Some s | Err _ => None end
            | _ => fun _ => None
            end res
        | _ => None
        end).
    assert (H3 : omap answer_of
                   (trace (snd (run Scenario.env_ok
                                  (_create_chat Scenario.cog Scenario.T7 "t")
                                  Scenario.st0)))
                 = ["reply"]) by (vm_compute; reflexivity).
    rewrite Htrace in H3. simpl in H3. injection H3 as H3. exact H3. }
  subst bot_response. cbv zeta. exists notice.
  rewrite Htrace. split; [reflexivity |]. split; [reflexivity |].
  split; [exact Hshown |]. split; [exact Hturns | exact Hloads].
Defined.

Lemma clean_file_name_keeps_or_replaces_witness :
  GreenCheck.clean_file_name "AL_Smith et al. 2020: notes"
  = "AL_Smith_et_al__2020__notes.md" /\
  String.get 2 (GreenCheck.clean_file_name "AL_Smith et al. 2020: notes")
  = Some "_"%char /\
  String.get 8 (GreenCheck.clean_file_name "AL_Smith et al. 2020: notes")
  = Some "_"%char.
Proof.
  split; [reflexivity |].
  destruct (GreenCheckFacts.clean_file_name_keeps_or_replaces
              "AL_Smith et al. 2020: notes") as (_ & H & _).
  split; [exact (H 2%nat "_"%char eq_refl) | exact (H 8%nat " "%char eq_refl)].
Defined.

Lemma clean_file_name_has_one_dot_witness :
  String.get 27 (GreenCheck.clean_file_name "AL_Smith et al. 2020: notes")
  = Some "."%char /\
  27%nat = String.length "AL_Smith et al. 2020: notes".
Proof.
  split; [reflexivity |].
  exact (proj1 (GreenCheckFacts.clean_file_name_has_one_dot
                  "AL_Smith et al. 2020: notes" 27 "." eq_refl) eq_refl).
Defined.

Lemma clean_file_name_collides_witness :
  GreenCheck.clean_file_name "Smith.2020" = GreenCheck.clean_file_name "Smith 2020".
Proof.
  exact (GreenCheckFacts.clean_file_name_collides "Smith 2020" " " "."
           eq_refl (or_introl eq_refl)).
Defined.

Lemma entry_without_messages_stops_the_run_witness :
  let out :=
    GreenCheck.exec (Cases.world_with [Cases.ada; Cases.bob])
      (GreenCheck.parse_green_check_messages true true "green_check_messages")
      [] in
  fst out
    = inr (GreenCheck.ValueError "Student Bob Byron has no green check messages")
  /\ GreenCheck.upserts (snd out) = ["Ada Lovelace"]
  /\ GreenCheck.saves (snd out) = 0%nat.
Proof.
  destruct (GreenCheckFacts.entry_without_messages_stops_the_run
              (Cases.world_with [Cases.ada; Cases.bob]) true true
              "green_check_messages" [Cases.ada; Cases.bob])
    as (_ & Hsaves & _).
  - vm_compute. reflexivity.
  - apply Exists_cons_tl, Exists_cons_hd. reflexivity.
  - split; [vm_compute; reflexivity |].
    split; [vm_compute; reflexivity | exact Hsaves].
Defined.

Lemma finished_run_saves_each_entry_once_witness :
  let out :=
    GreenCheck.exec (Cases.world_with [Cases.ada; Cases.ada])
      (GreenCheck.parse_green_check_messages false true "green_check_messages")
      [] in
  fst out = inl tt /\
  GreenCheck.upserts (snd out) = ["Ada Lovelace"; "Ada Lovelace"] /\
  GreenCheck.files (snd out)
    = ["AL_Lovelace_1843_-_Engine_notes.md";
       "AL_Lovelace_1843_-_Engine_notes.md"] /\
  GreenCheck.saves (snd out) = 1%nat.
Proof.
  assert (Hok :
    fst (GreenCheck.exec (Cases.world_with [Cases.ada; Cases.ada])
           (GreenCheck.parse_green_check_messages false true
              "green_check_messages") []) = inl tt)
    by (vm_compute; reflexivity).
  destruct (GreenCheckFacts.finished_run_saves_each_entry_once
              (Cases.world_with [Cases.ada; Cases.ada]) false true
              "green_check_messages" Hok)
    as (entries & _ & _ & _ & _ & Hsaves).
  split; [exact Hok |]. split; [vm_compute; reflexivity |].
  split; [vm_compute; reflexivity | exact Hsaves].
Defined.
